(** * react-svg-worldmap: data binding and pan/zoom controller

    A shallow embedding of the two [WorldMap] components of the repository
    ([src/lib/src/index.tsx], which tracks the pan incrementally, and its
    near-duplicate [src/unnamed/part_000], which tracks it relative to a
    snapshot taken at drag start), followed by the properties of the
    data binding and of the interaction controller.

    Conventions of the embedding.
    - A data value is a JavaScript number or string.  The only operations
      the component performs on data numbers are [Math.min], [Math.max] and
      comparisons, none of which rounds, so a number is modelled as an exact
      rational extended with [Infinity], [-Infinity] and [NaN] (signed zeros
      are identified).
    - In [Dom], [SnapshotPan] and [IncrementalPan], pointer coordinates,
      bounding-box offsets, translations and the zoom scale are integers.
      The source computes on doubles, on which the handlers' additions,
      subtractions and doublings are exact for integer values only; what is
      proved over [Z] is therefore a statement about integer inputs, unless
      it is an expression the code itself evaluates.  [Binary64] evaluates
      the move arithmetic on doubles, where a fractional bounding box makes
      it round.
    - In [SnapshotPan] and [IncrementalPan] each handler is a function from
      the state the previous handler left to the next state: that is the
      widget when a render separates the two events.  [SnapshotRender] and
      [IncrementalRender] keep apart the state variables of the last render,
      which its handlers close over, and the updates queued since; events
      and renders are then scheduled explicitly. *)

From Stdlib Require Import ZArith QArith Qcanon Ascii String List Bool Lia.
From Stdlib Require Import Floats.PrimFloat.
From stdpp Require Import base numbers strings list gmap.

Local Open Scope string_scope.
Local Open Scope Z_scope.

(** ** JavaScript numbers, as far as the data binding uses them *)

Module JsNumber.

Inductive number : Type :=
| NaN
| NegInf
| Fin (q : Qc)
| PosInf.

Definition Qc_ltb (a b : Qc) : bool :=
  match (a ?= b)%Qc with Lt => true | _ => false end.

Definition is_NaN (n : number) : bool :=
  match n with NaN => true | _ => false end.

(** [x < y] of the language: false as soon as an operand is [NaN]. *)
Definition lt (x y : number) : bool :=
  match x, y with
  | NaN, _ | _, NaN => false
  | _, NegInf => false
  | NegInf, _ => true
  | PosInf, _ => false
  | Fin _, PosInf => true
  | Fin a, Fin b => Qc_ltb a b
  end.

(** [x <= y] of the language: [y < x] is neither true nor undefined. *)
Definition le (x y : number) : bool :=
  match x, y with
  | NaN, _ | _, NaN => false
  | _, _ => negb (lt y x)
  end.

(** [Math.min(...coerced)]: start from [Infinity]; a [NaN] argument makes
    the result [NaN]; otherwise keep the smaller number. *)
Fixpoint min_from (lowest : number) (coerced : list number) : number :=
  match coerced with
  | [] => lowest
  | n :: rest =>
      if is_NaN n then NaN
      else min_from (if lt n lowest then n else lowest) rest
  end.

Definition Math_min (coerced : list number) : number :=
  min_from PosInf coerced.

(** [Math.max(...coerced)]: start from [-Infinity]. *)
Fixpoint max_from (highest : number) (coerced : list number) : number :=
  match coerced with
  | [] => highest
  | n :: rest =>
      if is_NaN n then NaN
      else max_from (if lt highest n then n else highest) rest
  end.

Definition Math_max (coerced : list number) : number :=
  max_from NegInf coerced.

Definition of_Z (z : Z) : number := Fin (Qc_of_Z z).

End JsNumber.

(** ** Data binding: lookup, value range and per-country context

    Identical in both source files (lines 62-67, 79-99 and [toValue]). *)

Module DataBinding.
Import JsNumber.

(** [T extends number | string] *)
Inductive Value : Type :=
| VNumber (n : number)
| VString (s : string).

Record DataItem : Type := mkDataItem {
  country : string;
  value : Value
}.

(** A record of [geoData.features]: [I] the ISO code, [N] the name.  The
    coordinates [C] only feed the path generator and are left out. *)
Record Feature : Type := mkFeature {
  I : string;
  N : string
}.

Record CountryContext : Type := mkCountryContext {
  countryCode : string;
  countryValue : option Value;   (* [None] is [undefined] *)
  countryName : string;
  color : string;
  minValue : number;
  maxValue : number;
  prefix : string;
  suffix : string
}.

(** The properties of [Props] that reach the context; an absent optional
    property is [None]. *)
Record Props : Type := mkProps {
  data : list DataItem;
  valuePrefix : option string;
  valueSuffix : option string;
  props_color : option string
}.

(** [function toValue({ value }) { return typeof value === "string" ? 0 : value; }] *)
Definition toValue (item : DataItem) : number :=
  match value item with
  | VString _ => of_Z 0
  | VNumber n => n
  end.

(** [String.prototype.toUpperCase] on the ASCII letters; every other
    character is kept (country codes are ASCII). *)
Definition toUpperCase_char (c : ascii) : ascii :=
  let n := N_of_ascii c in
  if ((97 <=? n) && (n <=? 122))%N then ascii_of_N (n - 32) else c.

Fixpoint toUpperCase (s : string) : string :=
  match s with
  | EmptyString => EmptyString
  | String c rest => String (toUpperCase_char c) (toUpperCase rest)
  end.

(** [Object.fromEntries]: the entries are written in order into an empty
    object, a later entry overwriting an earlier one with the same key. *)
Definition Object_fromEntries {V : Type} (entries : list (string * V))
  : gmap string V :=
  fold_left (fun o kv => <[ kv.1 := kv.2 ]> o) entries ∅.

(** [Object.fromEntries(data.map(({country, value}) => [country.toUpperCase(), value]))] *)
Definition countryValueMap (d : list DataItem) : gmap string Value :=
  Object_fromEntries
    (map (fun item => (toUpperCase (country item), value item)) d).

(** [Math.min(...data.map(toValue))] and [Math.max(...data.map(toValue))] *)
Definition data_minValue (d : list DataItem) : number :=
  Math_min (map toValue d).

Definition data_maxValue (d : list DataItem) : number :=
  Math_max (map toValue d).

Section Render.
(** [defaultColor] comes from [constants.js] and [geoData] from
    [countries.geo.js]; neither file is part of the sources at hand, so
    both are parameters of the render. *)
Variable defaultColor : string.
Variable geoData_features : list Feature.

(** The [context] object built for one feature (lines 90-99).
    [countryValueMap[isoCode]] is read as a lookup among the entries written
    by [Object.fromEntries]: the members an object inherits all have names
    with lower-case letters, which no ISO code is. *)
Definition context (props : Props) (feature : Feature) : CountryContext :=
  let isoCode := I feature in
  let countryName := N feature in
  {| countryCode := isoCode;
     countryValue := countryValueMap (data props) !! isoCode;
     countryName := countryName;
     color := default defaultColor (props_color props);
     minValue := data_minValue (data props);
     maxValue := data_maxValue (data props);
     prefix := default "" (valuePrefix props);
     suffix := default "" (valueSuffix props) |}.

(** [geoData.features.map((feature) => ...)], restricted to the context. *)
Definition contexts (props : Props) : list CountryContext :=
  map (context props) geoData_features.
End Render.

End DataBinding.

(** ** Tooltip text and the exported list of regions

    Lines 112-115 and the last lines of both source files. *)

Module Regions.
Import DataBinding.

(** The first argument of [drawTooltip]:
    [typeof context.countryValue === "undefined" ? undefined : tooltipTextFunction(context)] *)
Definition tooltip_text (tooltipTextFunction : CountryContext -> string)
    (context : CountryContext) : option string :=
  match countryValue context with
  | None => None
  | Some _ => Some (tooltipTextFunction context)
  end.

Record Region : Type := mkRegion {
  name : string;
  code : string
}.

(** [const regions = geoData.features.map((g) => ({ name: g.N, code: g.I }));] *)
Definition regions (geoData_features : list Feature) : list Region :=
  map (fun g => {| name := N g; code := I g |}) geoData_features.

End Regions.

(** ** What the handlers read from the browser *)

Module Dom.

(** Integer pixel quantities throughout (see the conventions above). *)
Record Point : Type := mkPoint { x : Z; y : Z }.

(** The two fields of [getBoundingClientRect()] that the handlers read. *)
Record DOMRect : Type := mkRect { left : Z; top : Z }.

(** A [React.MouseEvent]: the pointer position in the viewport and the
    bounding box of [e.currentTarget], the element the handler is
    attached to. *)
Record MouseEvent : Type := mkMouseEvent {
  clientX : Z;
  clientY : Z;
  currentTarget : DOMRect
}.

(** [containerRef.current]: [None] while the container is not mounted,
    otherwise the element, seen through its bounding box. *)
Definition Ref : Type := option DOMRect.

(** [containerRef.current?.getBoundingClientRect()] *)
Definition getBoundingClientRect (containerRef : Ref) : option DOMRect :=
  containerRef.

(** Pointer position relative to a bounding box. *)
Definition relative (e : MouseEvent) (rect : DOMRect) : Point :=
  {| x := clientX e - left rect; y := clientY e - top rect |}.

(** Pointer position in the viewport. *)
Definition client (e : MouseEvent) : Point :=
  {| x := clientX e; y := clientY e |}.

Definition origin : Point := {| x := 0; y := 0 |}.

(** A container whose bounding box starts at the viewport origin, and a
    pointer event over it. *)
Definition container_at_origin : DOMRect := {| left := 0; top := 0 |}.

Definition pointer_at (cx cy : Z) : MouseEvent :=
  {| clientX := cx; clientY := cy; currentTarget := container_at_origin |}.

(** The translation [t] carried along with a pointer that went from
    [from] to [to]. *)
Definition displaced (t from to : Point) : Point :=
  {| x := x t + (x to - x from); y := y t + (y to - y from) |}.

End Dom.

(** ** Snapshot-relative controller ([src/unnamed/part_000], lines 52-57 and 132-199) *)

Module SnapshotPan.
Import Dom.

Record State : Type := mkState {
  scale : Z;                  (* useState(1) *)
  translate : Point;          (* useRef({ x: 0, y: 0 }) *)
  dragStart : Point;          (* useRef({ x: 0, y: 0 }) *)
  initialTranslate : Point;   (* useRef({ x: 0, y: 0 }) *)
  cursor : string;            (* useState("default") *)
  isDragging : bool           (* useState(false) *)
}.

Definition initial : State :=
  {| scale := 1; translate := origin; dragStart := origin;
     initialTranslate := origin; cursor := "default"; isDragging := false |}.

Definition onMouseDown (containerRef : Ref) (e : MouseEvent) (s : State) : State :=
  if scale s <=? 1 then s
  else
    (* setIsDragging(true); setCursor("grabbing") *)
    match getBoundingClientRect containerRef with
    | Some rect =>
        {| scale := scale s;
           translate := translate s;
           dragStart := {| x := clientX e - left rect; y := clientY e - top rect |};
           initialTranslate := translate s;
           cursor := "grabbing";
           isDragging := true |}
    | None =>
        {| scale := scale s;
           translate := translate s;
           dragStart := dragStart s;
           initialTranslate := initialTranslate s;
           cursor := "grabbing";
           isDragging := true |}
    end.

(** The write to [containerRef.current.style.transform] that follows the
    update of [translate.current] is an effect on the page only; the
    handlers never read it back. *)
Definition onMouseMove (containerRef : Ref) (e : MouseEvent) (s : State) : State :=
  if negb (isDragging s) || (scale s <=? 1) then s
  else
    match getBoundingClientRect containerRef with
    | Some rect =>
        let dx := clientX e - left rect - x (dragStart s) in
        let dy := clientY e - top rect - y (dragStart s) in
        {| scale := scale s;
           translate := {| x := x (initialTranslate s) + dx;
                           y := y (initialTranslate s) + dy |};
           dragStart := dragStart s;
           initialTranslate := initialTranslate s;
           cursor := cursor s;
           isDragging := isDragging s |}
    | None => s
    end.

Definition onMouseUp (s : State) : State :=
  {| scale := scale s;
     translate := translate s;
     dragStart := dragStart s;
     initialTranslate := initialTranslate s;
     cursor := if 1 <? scale s then "grab" else "default";
     isDragging := false |}.

Definition onMouseLeave (s : State) : State :=
  {| scale := scale s;
     translate := translate s;
     dragStart := dragStart s;
     initialTranslate := initialTranslate s;
     cursor := if 1 <? scale s then "grab" else "default";
     isDragging := if isDragging s then false else isDragging s |}.

Definition onDoubleClick (e : MouseEvent) (s : State) : State :=
  let rect := currentTarget e in
  let px := clientX e - left rect in
  let py := clientY e - top rect in
  if scale s =? 4 then
    {| scale := 1;
       translate := {| x := 0; y := 0 |};
       dragStart := dragStart s;
       initialTranslate := initialTranslate s;
       cursor := "default";
       isDragging := isDragging s |}
  else
    {| scale := scale s * 2;
       translate := {| x := 2 * x (translate s) - px;
                       y := 2 * y (translate s) - py |};
       dragStart := dragStart s;
       initialTranslate := initialTranslate s;
       cursor := "grab";
       isDragging := isDragging s |}.

(** The events the [svg] element delivers, each with what its handler
    reads from the page at that moment. *)
Inductive Event : Type :=
| PointerDown (containerRef : Ref) (e : MouseEvent)
| PointerMove (containerRef : Ref) (e : MouseEvent)
| PointerUp
| PointerLeave
| DoubleClick (e : MouseEvent).

Definition step (s : State) (ev : Event) : State :=
  match ev with
  | PointerDown r e => onMouseDown r e s
  | PointerMove r e => onMouseMove r e s
  | PointerUp => onMouseUp s
  | PointerLeave => onMouseLeave s
  | DoubleClick e => onDoubleClick e s
  end.

(** Events are handled in delivery order, each handler reading the state
    the previous one left: the widget with a render after every event
    ([SnapshotRender] schedules the renders explicitly). *)
Definition run (s : State) (evs : list Event) : State :=
  fold_left step evs s.

Definition is_pan (ev : Event) : bool :=
  match ev with DoubleClick _ => false | _ => true end.

(** [pointerMove] events, each with the container reference it sees. *)
Definition moves (ms : list (Ref * MouseEvent)) : list Event :=
  map (fun m => PointerMove m.1 m.2) ms.

(** A drag session: [pointerDown], any [pointerMove]s, [pointerUp]. *)
Definition drag_session (containerRef : Ref) (e0 : MouseEvent)
    (ms : list (Ref * MouseEvent)) : list Event :=
  PointerDown containerRef e0 :: moves ms ++ [PointerUp].

(** [{...(richInteraction ? eventHandlers : undefined)}]: the handlers are
    attached to the [svg] element only when [richInteraction] is set;
    otherwise an event finds no handler and the state stays as it is. *)
Definition dispatch (richInteraction : bool) (s : State) (ev : Event) : State :=
  if richInteraction then step s ev else s.

(** The state of a freshly mounted widget after a sequence of events. *)
Definition mounted (richInteraction : bool) (evs : list Event) : State :=
  fold_left (dispatch richInteraction) evs initial.

(** What every state reached from [initial] satisfies: the scale is 1, 2 or
    4; an unzoomed map is untranslated; the cursor is "default" exactly at
    scale 1, and "grabbing" only while dragging. *)
Definition consistent (s : State) : Prop :=
  (scale s = 1 \/ scale s = 2 \/ scale s = 4) /\
  (scale s = 1 -> translate s = origin) /\
  (cursor s = "default" <-> scale s = 1) /\
  (cursor s = "grabbing" -> isDragging s = true).

End SnapshotPan.

(** ** Incremental controller ([src/lib/src/index.tsx], lines 52-57 and 132-174) *)

Module IncrementalPan.
Import Dom.

Record State : Type := mkState {
  scale : Z;            (* useState(1) *)
  translateX : Z;       (* useState(0) *)
  translateY : Z;       (* useState(0) *)
  isDragging : bool;    (* useState(false) *)
  dragStart : Point;    (* useState({ x: 0, y: 0 }) *)
  cursor : string       (* useState("default") *)
}.

Definition initial : State :=
  {| scale := 1; translateX := 0; translateY := 0; isDragging := false;
     dragStart := origin; cursor := "default" |}.

Definition translate (s : State) : Point :=
  {| x := translateX s; y := translateY s |}.

Definition onMouseDown (e : MouseEvent) (s : State) : State :=
  if scale s <=? 1 then s
  else
    {| scale := scale s;
       translateX := translateX s;
       translateY := translateY s;
       isDragging := true;
       dragStart := {| x := clientX e; y := clientY e |};
       cursor := "grabbing" |}.

(** The handler of a render whose state is [s], with nothing queued since
    ([IncrementalRender.onMouseMove] is the general case). *)
Definition onMouseMove (e : MouseEvent) (s : State) : State :=
  if negb (isDragging s) || (scale s <=? 1) then s
  else
    let dx := clientX e - x (dragStart s) in
    let dy := clientY e - y (dragStart s) in
    {| scale := scale s;
       translateX := translateX s + dx;
       translateY := translateY s + dy;
       isDragging := isDragging s;
       dragStart := {| x := clientX e; y := clientY e |};
       cursor := cursor s |}.

Definition onMouseUp (s : State) : State :=
  {| scale := scale s;
     translateX := translateX s;
     translateY := translateY s;
     isDragging := false;
     dragStart := dragStart s;
     cursor := if 1 <? scale s then "grab" else "default" |}.

Definition onMouseLeave (s : State) : State :=
  {| scale := scale s;
     translateX := translateX s;
     translateY := translateY s;
     isDragging := if isDragging s then false else isDragging s;
     dragStart := dragStart s;
     cursor := if 1 <? scale s then "grab" else "default" |}.

Definition onDoubleClick (e : MouseEvent) (s : State) : State :=
  let rect := currentTarget e in
  let px := clientX e - left rect in
  let py := clientY e - top rect in
  if scale s =? 4 then
    {| scale := 1;
       translateX := 0;
       translateY := 0;
       isDragging := isDragging s;
       dragStart := dragStart s;
       cursor := "default" |}
  else
    {| scale := scale s * 2;
       translateX := 2 * translateX s - px;
       translateY := 2 * translateY s - py;
       isDragging := isDragging s;
       dragStart := dragStart s;
       cursor := "grab" |}.

Inductive Event : Type :=
| PointerDown (e : MouseEvent)
| PointerMove (e : MouseEvent)
| PointerUp
| PointerLeave
| DoubleClick (e : MouseEvent).

Definition step (s : State) (ev : Event) : State :=
  match ev with
  | PointerDown e => onMouseDown e s
  | PointerMove e => onMouseMove e s
  | PointerUp => onMouseUp s
  | PointerLeave => onMouseLeave s
  | DoubleClick e => onDoubleClick e s
  end.

(** Events handled in delivery order, each handler reading the state the
    previous one left: the widget with a render after every event
    ([IncrementalRender] schedules the renders explicitly). *)
Definition run (s : State) (evs : list Event) : State :=
  fold_left step evs s.

Definition is_pan (ev : Event) : bool :=
  match ev with DoubleClick _ => false | _ => true end.

Definition moves (ms : list MouseEvent) : list Event :=
  map PointerMove ms.

(** A drag session: [pointerDown], any [pointerMove]s, [pointerUp]. *)
Definition drag_session (e0 : MouseEvent) (ms : list MouseEvent) : list Event :=
  PointerDown e0 :: moves ms ++ [PointerUp].

(** [{...(richInteraction ? eventHandlers : undefined)}]: the handlers are
    attached to the [svg] element only when [richInteraction] is set;
    otherwise an event finds no handler and the state stays as it is. *)
Definition dispatch (richInteraction : bool) (s : State) (ev : Event) : State :=
  if richInteraction then step s ev else s.

(** The state of a freshly mounted widget after a sequence of events. *)
Definition mounted (richInteraction : bool) (evs : list Event) : State :=
  fold_left (dispatch richInteraction) evs initial.

(** What every state reached from [initial] satisfies: the scale is 1, 2 or
    4; an unzoomed map is untranslated; the cursor is "default" exactly at
    scale 1, and "grabbing" only while dragging. *)
Definition consistent (s : State) : Prop :=
  (scale s = 1 \/ scale s = 2 \/ scale s = 4) /\
  (scale s = 1 -> translate s = origin) /\
  (cursor s = "default" <-> scale s = 1) /\
  (cursor s = "grabbing" -> isDragging s = true).

End IncrementalPan.

(** ** The controllers under React's rendering

    A handler is a closure of the render that created it: the state
    variables it reads ([useState]) are those of that render, whatever has
    been queued since; [setX(v)] queues a replacement and [setX(f)] a
    function applied to what is queued; the queue becomes the state at the
    next render.  An object held by [useRef] is read and written in place.
    [shown] is the state of the last render, [queued] the state the next
    render will have. *)

Module IncrementalRender.
Import Dom.

Record Widget : Type := mkWidget {
  shown : IncrementalPan.State;
  queued : IncrementalPan.State
}.

(** A widget that has just rendered state [s]. *)
Definition committed (s : IncrementalPan.State) : Widget :=
  {| shown := s; queued := s |}.

Definition mounted : Widget := committed IncrementalPan.initial.

Definition render (w : Widget) : Widget := committed (queued w).

(** [src/lib/src/index.tsx], lines 133-139 *)
Definition onMouseDown (e : MouseEvent) (w : Widget) : Widget :=
  if IncrementalPan.scale (shown w) <=? 1 then w
  else
    {| shown := shown w;
       queued :=
         {| IncrementalPan.scale := IncrementalPan.scale (queued w);
            IncrementalPan.translateX := IncrementalPan.translateX (queued w);
            IncrementalPan.translateY := IncrementalPan.translateY (queued w);
            IncrementalPan.isDragging := true;
            IncrementalPan.dragStart := {| x := clientX e; y := clientY e |};
            IncrementalPan.cursor := "grabbing" |} |}.

(** Lines 140-149: [isDragging], [scale] and [dragStart] are the render's;
    [setTranslateX((prev) => prev + dx)] adds to what is queued. *)
Definition onMouseMove (e : MouseEvent) (w : Widget) : Widget :=
  if negb (IncrementalPan.isDragging (shown w))
     || (IncrementalPan.scale (shown w) <=? 1) then w
  else
    let dx := clientX e - x (IncrementalPan.dragStart (shown w)) in
    let dy := clientY e - y (IncrementalPan.dragStart (shown w)) in
    {| shown := shown w;
       queued :=
         {| IncrementalPan.scale := IncrementalPan.scale (queued w);
            IncrementalPan.translateX := IncrementalPan.translateX (queued w) + dx;
            IncrementalPan.translateY := IncrementalPan.translateY (queued w) + dy;
            IncrementalPan.isDragging := IncrementalPan.isDragging (queued w);
            IncrementalPan.dragStart := {| x := clientX e; y := clientY e |};
            IncrementalPan.cursor := IncrementalPan.cursor (queued w) |} |}.

(** Lines 150-153 *)
Definition onMouseUp (w : Widget) : Widget :=
  {| shown := shown w;
     queued :=
       {| IncrementalPan.scale := IncrementalPan.scale (queued w);
          IncrementalPan.translateX := IncrementalPan.translateX (queued w);
          IncrementalPan.translateY := IncrementalPan.translateY (queued w);
          IncrementalPan.isDragging := false;
          IncrementalPan.dragStart := IncrementalPan.dragStart (queued w);
          IncrementalPan.cursor :=
            if 1 <? IncrementalPan.scale (shown w) then "grab" else "default" |} |}.

(** Lines 154-157 *)
Definition onMouseLeave (w : Widget) : Widget :=
  {| shown := shown w;
     queued :=
       {| IncrementalPan.scale := IncrementalPan.scale (queued w);
          IncrementalPan.translateX := IncrementalPan.translateX (queued w);
          IncrementalPan.translateY := IncrementalPan.translateY (queued w);
          IncrementalPan.isDragging :=
            if IncrementalPan.isDragging (shown w) then false
            else IncrementalPan.isDragging (queued w);
          IncrementalPan.dragStart := IncrementalPan.dragStart (queued w);
          IncrementalPan.cursor :=
            if 1 <? IncrementalPan.scale (shown w) then "grab" else "default" |} |}.

(** Lines 158-173: [setTranslateX(2 * translateX - x)] and
    [setScale(scale * 2)] are computed from the render's values. *)
Definition onDoubleClick (e : MouseEvent) (w : Widget) : Widget :=
  let rect := currentTarget e in
  let px := clientX e - left rect in
  let py := clientY e - top rect in
  if IncrementalPan.scale (shown w) =? 4 then
    {| shown := shown w;
       queued :=
         {| IncrementalPan.scale := 1;
            IncrementalPan.translateX := 0;
            IncrementalPan.translateY := 0;
            IncrementalPan.isDragging := IncrementalPan.isDragging (queued w);
            IncrementalPan.dragStart := IncrementalPan.dragStart (queued w);
            IncrementalPan.cursor := "default" |} |}
  else
    {| shown := shown w;
       queued :=
         {| IncrementalPan.scale := IncrementalPan.scale (shown w) * 2;
            IncrementalPan.translateX := 2 * IncrementalPan.translateX (shown w) - px;
            IncrementalPan.translateY := 2 * IncrementalPan.translateY (shown w) - py;
            IncrementalPan.isDragging := IncrementalPan.isDragging (queued w);
            IncrementalPan.dragStart := IncrementalPan.dragStart (queued w);
            IncrementalPan.cursor := "grab" |} |}.

(** What happens to a mounted widget: an event reaches its handler, or the
    component renders again. *)
Inductive Event : Type :=
| Handle (ev : IncrementalPan.Event)
| Render.

Definition step (w : Widget) (ev : Event) : Widget :=
  match ev with
  | Handle (IncrementalPan.PointerDown e) => onMouseDown e w
  | Handle (IncrementalPan.PointerMove e) => onMouseMove e w
  | Handle IncrementalPan.PointerUp => onMouseUp w
  | Handle IncrementalPan.PointerLeave => onMouseLeave w
  | Handle (IncrementalPan.DoubleClick e) => onDoubleClick e w
  | Render => render w
  end.

Definition run (w : Widget) (evs : list Event) : Widget :=
  fold_left step evs w.

(** The schedule with a render after every event. *)
Definition rendered_after_each (evs : list IncrementalPan.Event) : list Event :=
  flat_map (fun ev => [Handle ev; Render]) evs.

(** Moves that reach the handler of one and the same render. *)
Definition batch (ms : list MouseEvent) : list Event :=
  map (fun e => Handle (IncrementalPan.PointerMove e)) ms.

(** The translation [t] after adding, for each pointer position of [ms] in
    turn, its displacement from one and the same position [p0]. *)
Definition accumulated (t p0 : Point) (ms : list MouseEvent) : Point :=
  fold_left (fun acc e => displaced acc p0 (client e)) ms t.

End IncrementalRender.

Module SnapshotRender.
Import Dom.

(** [scale], [cursor] and [isDragging] are state variables, read from
    [shown]; [translate], [dragStart] and [initialTranslate] are [useRef]
    objects, read and written in [queued]. *)
Record Widget : Type := mkWidget {
  shown : SnapshotPan.State;
  queued : SnapshotPan.State
}.

Definition committed (s : SnapshotPan.State) : Widget :=
  {| shown := s; queued := s |}.

Definition mounted : Widget := committed SnapshotPan.initial.

Definition render (w : Widget) : Widget := committed (queued w).

(** [src/unnamed/part_000], lines 133-148 *)
Definition onMouseDown (containerRef : Ref) (e : MouseEvent) (w : Widget) : Widget :=
  if SnapshotPan.scale (shown w) <=? 1 then w
  else
    match getBoundingClientRect containerRef with
    | Some rect =>
        {| shown := shown w;
           queued :=
             {| SnapshotPan.scale := SnapshotPan.scale (queued w);
                SnapshotPan.translate := SnapshotPan.translate (queued w);
                SnapshotPan.dragStart :=
                  {| x := clientX e - left rect; y := clientY e - top rect |};
                SnapshotPan.initialTranslate := SnapshotPan.translate (queued w);
                SnapshotPan.cursor := "grabbing";
                SnapshotPan.isDragging := true |} |}
    | None =>
        {| shown := shown w;
           queued :=
             {| SnapshotPan.scale := SnapshotPan.scale (queued w);
                SnapshotPan.translate := SnapshotPan.translate (queued w);
                SnapshotPan.dragStart := SnapshotPan.dragStart (queued w);
                SnapshotPan.initialTranslate := SnapshotPan.initialTranslate (queued w);
                SnapshotPan.cursor := "grabbing";
                SnapshotPan.isDragging := true |} |}
    end.

(** Lines 149-173: [isDragging] and [scale] are the render's, the three
    refs are read and written in place. *)
Definition onMouseMove (containerRef : Ref) (e : MouseEvent) (w : Widget) : Widget :=
  if negb (SnapshotPan.isDragging (shown w))
     || (SnapshotPan.scale (shown w) <=? 1) then w
  else
    match getBoundingClientRect containerRef with
    | Some rect =>
        let dx := clientX e - left rect - x (SnapshotPan.dragStart (queued w)) in
        let dy := clientY e - top rect - y (SnapshotPan.dragStart (queued w)) in
        {| shown := shown w;
           queued :=
             {| SnapshotPan.scale := SnapshotPan.scale (queued w);
                SnapshotPan.translate :=
                  {| x := x (SnapshotPan.initialTranslate (queued w)) + dx;
                     y := y (SnapshotPan.initialTranslate (queued w)) + dy |};
                SnapshotPan.dragStart := SnapshotPan.dragStart (queued w);
                SnapshotPan.initialTranslate := SnapshotPan.initialTranslate (queued w);
                SnapshotPan.cursor := SnapshotPan.cursor (queued w);
                SnapshotPan.isDragging := SnapshotPan.isDragging (queued w) |} |}
    | None => w
    end.

(** Lines 174-177 *)
Definition onMouseUp (w : Widget) : Widget :=
  {| shown := shown w;
     queued :=
       {| SnapshotPan.scale := SnapshotPan.scale (queued w);
          SnapshotPan.translate := SnapshotPan.translate (queued w);
          SnapshotPan.dragStart := SnapshotPan.dragStart (queued w);
          SnapshotPan.initialTranslate := SnapshotPan.initialTranslate (queued w);
          SnapshotPan.cursor :=
            if 1 <? SnapshotPan.scale (shown w) then "grab" else "default";
          SnapshotPan.isDragging := false |} |}.

(** Lines 178-181 *)
Definition onMouseLeave (w : Widget) : Widget :=
  {| shown := shown w;
     queued :=
       {| SnapshotPan.scale := SnapshotPan.scale (queued w);
          SnapshotPan.translate := SnapshotPan.translate (queued w);
          SnapshotPan.dragStart := SnapshotPan.dragStart (queued w);
          SnapshotPan.initialTranslate := SnapshotPan.initialTranslate (queued w);
          SnapshotPan.cursor :=
            if 1 <? SnapshotPan.scale (shown w) then "grab" else "default";
          SnapshotPan.isDragging :=
            if SnapshotPan.isDragging (shown w) then false
            else SnapshotPan.isDragging (queued w) |} |}.

(** Lines 182-198: [translate.current] is doubled in place, [setScale] is
    computed from the render's [scale]. *)
Definition onDoubleClick (e : MouseEvent) (w : Widget) : Widget :=
  let rect := currentTarget e in
  let px := clientX e - left rect in
  let py := clientY e - top rect in
  if SnapshotPan.scale (shown w) =? 4 then
    {| shown := shown w;
       queued :=
         {| SnapshotPan.scale := 1;
            SnapshotPan.translate := {| x := 0; y := 0 |};
            SnapshotPan.dragStart := SnapshotPan.dragStart (queued w);
            SnapshotPan.initialTranslate := SnapshotPan.initialTranslate (queued w);
            SnapshotPan.cursor := "default";
            SnapshotPan.isDragging := SnapshotPan.isDragging (queued w) |} |}
  else
    {| shown := shown w;
       queued :=
         {| SnapshotPan.scale := SnapshotPan.scale (shown w) * 2;
            SnapshotPan.translate :=
              {| x := 2 * x (SnapshotPan.translate (queued w)) - px;
                 y := 2 * y (SnapshotPan.translate (queued w)) - py |};
            SnapshotPan.dragStart := SnapshotPan.dragStart (queued w);
            SnapshotPan.initialTranslate := SnapshotPan.initialTranslate (queued w);
            SnapshotPan.cursor := "grab";
            SnapshotPan.isDragging := SnapshotPan.isDragging (queued w) |} |}.

Inductive Event : Type :=
| Handle (ev : SnapshotPan.Event)
| Render.

Definition step (w : Widget) (ev : Event) : Widget :=
  match ev with
  | Handle (SnapshotPan.PointerDown r e) => onMouseDown r e w
  | Handle (SnapshotPan.PointerMove r e) => onMouseMove r e w
  | Handle SnapshotPan.PointerUp => onMouseUp w
  | Handle SnapshotPan.PointerLeave => onMouseLeave w
  | Handle (SnapshotPan.DoubleClick e) => onDoubleClick e w
  | Render => render w
  end.

Definition run (w : Widget) (evs : list Event) : Widget :=
  fold_left step evs w.

(** The schedule with a render after every event. *)
Definition rendered_after_each (evs : list SnapshotPan.Event) : list Event :=
  flat_map (fun ev => [Handle ev; Render]) evs.

(** Moves and renders in any order: [None] is a render, [Some (r, e)] a
    pointerMove that finds the container reference [r]. *)
Definition interleaved (sched : list (option (Ref * MouseEvent))) : list Event :=
  map (fun o => match o with
                | Some m => Handle (SnapshotPan.PointerMove m.1 m.2)
                | None => Render
                end) sched.

(** The moves of such a schedule, in order. *)
Definition moves_of (sched : list (option (Ref * MouseEvent)))
  : list (Ref * MouseEvent) :=
  flat_map (fun o => match o with Some m => [m] | None => [] end) sched.

End SnapshotRender.

(** ** The move arithmetic on doubles

    The horizontal coordinate of the two [onMouseMove] handlers, evaluated
    in binary64 as the program does. *)

Module Binary64.
Local Open Scope float_scope.

(** [src/unnamed/part_000], lines 142-143: [e.clientX - rect.left] *)
Definition snapshot_dragStart (clientX left : float) : float :=
  clientX - left.

(** [src/unnamed/part_000], lines 155 and 160:
    [initialTranslate.current.x + (e.clientX - rect.left - dragStart.current.x)] *)
Definition snapshot_translate (initialTranslate dragStart clientX left : float)
  : float :=
  initialTranslate + (clientX - left - dragStart).

(** [src/lib/src/index.tsx], lines 143 and 146:
    [prev + (e.clientX - dragStart.x)] *)
Definition incremental_translate (prev dragStart clientX : float) : float :=
  prev + (clientX - dragStart).

(** The double that the literal [0.7] denotes. *)
Definition seven_tenths : float := 0x1.6666666666666p-1.

End Binary64.

(** ** The two controllers side by side *)

Module Variants.
Import Dom.

(** What the render shows of a state: the transform, the cursor and the
    dragging flag. *)
Definition observe_snapshot (s : SnapshotPan.State) : Z * Point * string * bool :=
  (SnapshotPan.scale s, SnapshotPan.translate s, SnapshotPan.cursor s,
   SnapshotPan.isDragging s).

Definition observe_incremental (s : IncrementalPan.State) : Z * Point * string * bool :=
  (IncrementalPan.scale s, IncrementalPan.translate s, IncrementalPan.cursor s,
   IncrementalPan.isDragging s).

(** The same event, as the snapshot-relative controller receives it when
    the container is mounted with bounding box [rect]. *)
Definition measured (rect : DOMRect) (ev : IncrementalPan.Event) : SnapshotPan.Event :=
  match ev with
  | IncrementalPan.PointerDown e => SnapshotPan.PointerDown (Some rect) e
  | IncrementalPan.PointerMove e => SnapshotPan.PointerMove (Some rect) e
  | IncrementalPan.PointerUp => SnapshotPan.PointerUp
  | IncrementalPan.PointerLeave => SnapshotPan.PointerLeave
  | IncrementalPan.DoubleClick e => SnapshotPan.DoubleClick e
  end.

(** Event sequences in which every double-click finds the widget idle (a
    browser sends the double-click after the second pointerUp). *)
Fixpoint double_clicks_idle (s : IncrementalPan.State)
    (evs : list IncrementalPan.Event) : bool :=
  match evs with
  | [] => true
  | ev :: rest =>
      match ev with
      | IncrementalPan.DoubleClick _ => negb (IncrementalPan.isDragging s)
      | _ => true
      end && double_clicks_idle (IncrementalPan.step s ev) rest
  end.

End Variants.

(** * Properties *)

(** ** The order on numbers and the extrema of an argument list *)

Section NumberOrder.
Import JsNumber.

Lemma Qc_ltb_lt (a b : Qc) : Qc_ltb a b = true <-> (a < b)%Qc.
Proof.
  unfold Qc_ltb. rewrite Qclt_alt.
  destruct (a ?= b)%Qc; split; congruence.
Qed.

Lemma Qc_ltb_ge (a b : Qc) : Qc_ltb a b = false <-> (b <= a)%Qc.
Proof.
  split; intros H.
  - apply Qcnot_lt_le. intros Hlt. apply Qc_ltb_lt in Hlt. congruence.
  - destruct (Qc_ltb a b) eqn:E; [|reflexivity].
    apply Qc_ltb_lt in E. now apply Qcle_not_lt in H.
Qed.

Lemma le_not_NaN (a b : number) :
  le a b = true -> is_NaN a = false /\ is_NaN b = false.
Proof. destruct a, b; simpl; intros; split; congruence. Qed.

Lemma le_refl (a : number) : is_NaN a = false -> le a a = true.
Proof.
  destruct a; simpl; try congruence. intros _.
  apply negb_true_iff, Qc_ltb_ge, Qcle_refl.
Qed.

Lemma le_trans (a b c : number) :
  le a b = true -> le b c = true -> le a c = true.
Proof.
  destruct a as [| |qa|], b as [| |qb|], c as [| |qc|];
    simpl; try congruence.
  rewrite !negb_true_iff, !Qc_ltb_ge. apply Qcle_trans.
Qed.

Lemma lt_le (a b : number) : lt a b = true -> le a b = true.
Proof.
  destruct a as [| |qa|], b as [| |qb|]; simpl; try congruence.
  rewrite negb_true_iff, Qc_ltb_lt, Qc_ltb_ge. apply Qclt_le_weak.
Qed.

Lemma nlt_le (a b : number) :
  is_NaN a = false -> is_NaN b = false -> lt a b = false -> le b a = true.
Proof.
  destruct a as [| |qa|], b as [| |qb|]; simpl; try congruence.
  intros _ _ ->. reflexivity.
Qed.

(** An argument list with a [NaN] in it has [NaN] for minimum and maximum,
    whatever the running extremum. *)
Lemma min_from_NaN (l : list number) (lowest : number) :
  existsb is_NaN l = true -> min_from lowest l = NaN.
Proof.
  revert lowest. induction l as [|n l IH]; simpl; intros lowest H.
  - discriminate.
  - destruct (is_NaN n); [reflexivity|]. now apply IH.
Qed.

Lemma max_from_NaN (l : list number) (highest : number) :
  existsb is_NaN l = true -> max_from highest l = NaN.
Proof.
  revert highest. induction l as [|n l IH]; simpl; intros highest H.
  - discriminate.
  - destruct (is_NaN n); [reflexivity|]. now apply IH.
Qed.

(** Without [NaN], the running minimum ends on the start value or on an
    argument, below the start value and below every argument. *)
Lemma min_from_spec (l : list number) (lowest : number) :
  existsb is_NaN l = false -> is_NaN lowest = false ->
  (min_from lowest l = lowest \/ In (min_from lowest l) l) /\
  le (min_from lowest l) lowest = true /\
  (forall n, In n l -> le (min_from lowest l) n = true).
Proof.
  revert lowest. induction l as [|n l IH]; simpl; intros lowest Hl Hlow.
  - split; [now left|]. split; [now apply le_refl|]. intros ? [].
  - apply orb_false_iff in Hl as [Hn Hl]. rewrite Hn.
    destruct (lt n lowest) eqn:E.
    + destruct (IH n Hl Hn) as (Hmem & Hle & Hall).
      split; [destruct Hmem as [->|Hmem]; auto|].
      split; [eapply le_trans; [exact Hle|now apply lt_le]|].
      intros m [<-|Hm]; auto.
    + destruct (IH lowest Hl Hlow) as (Hmem & Hle & Hall).
      split; [destruct Hmem as [->|Hmem]; auto|].
      split; [exact Hle|].
      intros m [<-|Hm]; auto.
      eapply le_trans; [exact Hle|now apply nlt_le].
Qed.

Lemma max_from_spec (l : list number) (highest : number) :
  existsb is_NaN l = false -> is_NaN highest = false ->
  (max_from highest l = highest \/ In (max_from highest l) l) /\
  le highest (max_from highest l) = true /\
  (forall n, In n l -> le n (max_from highest l) = true).
Proof.
  revert highest. induction l as [|n l IH]; simpl; intros highest Hl Hhigh.
  - split; [now left|]. split; [now apply le_refl|]. intros ? [].
  - apply orb_false_iff in Hl as [Hn Hl]. rewrite Hn.
    destruct (lt highest n) eqn:E.
    + destruct (IH n Hl Hn) as (Hmem & Hle & Hall).
      split; [destruct Hmem as [->|Hmem]; auto|].
      split; [apply (le_trans _ n); [now apply lt_le|exact Hle]|].
      intros m [<-|Hm]; auto.
    + destruct (IH highest Hl Hhigh) as (Hmem & Hle & Hall).
      split; [destruct Hmem as [->|Hmem]; auto|].
      split; [exact Hle|].
      intros m [<-|Hm]; auto.
      apply (le_trans _ highest); [now apply nlt_le|exact Hle].
Qed.

(** On a non-empty argument list without [NaN] the start value is never
    the answer unless it is an argument itself. *)
Lemma Math_min_mem (l : list number) :
  l <> [] -> existsb is_NaN l = false -> In (Math_min l) l.
Proof.
  intros Hne Hl. destruct (min_from_spec l PosInf Hl eq_refl) as (Hmem & _ & Hall).
  destruct Hmem as [Heq|Hmem]; [|exact Hmem].
  destruct l as [|n l]; [contradiction|].
  pose proof (Hall n (or_introl eq_refl)) as Hn.
  fold (Math_min (n :: l)) in Heq, Hn. rewrite Heq in Hn |- *.
  destruct n; simpl in *; try discriminate. now left.
Qed.

Lemma Math_max_mem (l : list number) :
  l <> [] -> existsb is_NaN l = false -> In (Math_max l) l.
Proof.
  intros Hne Hl. destruct (max_from_spec l NegInf Hl eq_refl) as (Hmem & _ & Hall).
  destruct Hmem as [Heq|Hmem]; [|exact Hmem].
  destruct l as [|n l]; [contradiction|].
  pose proof (Hall n (or_introl eq_refl)) as Hn.
  fold (Math_max (n :: l)) in Heq, Hn. rewrite Heq in Hn |- *.
  destruct n; simpl in *; try discriminate. now left.
Qed.

End NumberOrder.

(** ** The lookup built from the caller's data *)

Section Lookup.
Import JsNumber DataBinding.



Context {V : Type}.
Implicit Types (entries : list (string * V)) (o : gmap string V) (k : string).

(** Reading key [k] in the object written entry by entry is scanning the
    entries for [k] and remembering the last hit. *)
Lemma lookup_fold_insert entries o k :
  fold_left (fun o kv => <[ kv.1 := kv.2 ]> o) entries o !! k =
  fold_left (fun hit kv => if decide (kv.1 = k) then Some kv.2 else hit)
            entries (o !! k).
Proof.
  revert o. induction entries as [|[k' v] entries IH]; intros o; simpl.
  - reflexivity.
  - rewrite IH, lookup_insert. reflexivity.
Qed.

Lemma scan_no_hit entries k (hit : option V) :
  Forall (fun kv => kv.1 <> k) entries ->
  fold_left (fun hit kv => if decide (kv.1 = k) then Some kv.2 else hit)
            entries hit = hit.
Proof.
  intros H. revert hit. induction H as [|[k' v] entries Hk _ IH]; intros hit; simpl.
  - reflexivity.
  - simpl in Hk. rewrite IH. now rewrite decide_False.
Qed.

Lemma scan_hit_inv entries k (hit : option V) (v : V) :
  fold_left (fun hit kv => if decide (kv.1 = k) then Some kv.2 else hit)
            entries hit = Some v ->
  hit = Some v \/ In (k, v) entries.
Proof.
  revert hit. induction entries as [|[k' v'] entries IH]; intros hit; simpl.
  - now left.
  - intros H. apply IH in H as [H|H]; [|now right; right].
    destruct (decide (k' = k)) as [->|_]; [|now left].
    right; left. congruence.
Qed.

Lemma fromEntries_last pre post k (v : V) :
  Forall (fun kv => kv.1 <> k) post ->
  Object_fromEntries (pre ++ (k, v) :: post) !! k = Some v.
Proof.
  intros H. unfold Object_fromEntries.
  rewrite lookup_fold_insert, fold_left_app. simpl.
  rewrite decide_True by reflexivity. now apply scan_no_hit.
Qed.

Lemma fromEntries_absent entries k :
  Forall (fun kv => kv.1 <> k) entries ->
  Object_fromEntries entries !! k = None.
Proof.
  intros H. unfold Object_fromEntries.
  rewrite lookup_fold_insert, lookup_empty. now apply scan_no_hit.
Qed.

Lemma fromEntries_Some_inv entries k (v : V) :
  Object_fromEntries entries !! k = Some v -> In (k, v) entries.
Proof.
  unfold Object_fromEntries. rewrite lookup_fold_insert, lookup_empty.
  intros H. apply scan_hit_inv in H as [H|H]; [discriminate|exact H].
Qed.

(** An entry followed by another entry with the same key is dead. *)
Lemma fromEntries_shadowed pre mid post k (v0 v : V) :
  Object_fromEntries (pre ++ (k, v0) :: mid ++ (k, v) :: post) =
  Object_fromEntries (pre ++ mid ++ (k, v) :: post).
Proof.
  apply map_eq. intros j. unfold Object_fromEntries.
  rewrite !lookup_fold_insert, !fold_left_app. simpl.
  rewrite !fold_left_app. simpl.
  destruct (decide (k = j)) as [->|Hne]; reflexivity.
Qed.

End Lookup.

Section CountryValueMap.
Import JsNumber DataBinding.

Lemma countryValueMap_last (pre post : list DataItem) (d : DataItem) :
  Forall (fun d' => toUpperCase (country d') <> toUpperCase (country d)) post ->
  countryValueMap (pre ++ d :: post) !! toUpperCase (country d)
  = Some (value d).
Proof.
  intros H. unfold countryValueMap. rewrite map_app. simpl.
  apply fromEntries_last. rewrite Forall_map. exact H.
Qed.

Lemma countryValueMap_absent (d : list DataItem) (k : string) :
  Forall (fun d' => toUpperCase (country d') <> k) d ->
  countryValueMap d !! k = None.
Proof.
  intros H. unfold countryValueMap.
  apply fromEntries_absent. rewrite Forall_map. exact H.
Qed.

Lemma countryValueMap_Some_inv (d : list DataItem) (k : string) (v : Value) :
  countryValueMap d !! k = Some v ->
  exists item, In item d /\ toUpperCase (country item) = k /\ value item = v.
Proof.
  intros H. apply fromEntries_Some_inv, in_map_iff in H as (item & Heq & Hin).
  exists item. injection Heq as <- <-. auto.
Qed.

Lemma countryValueMap_shadowed (pre mid post : list DataItem) (d0 d : DataItem) :
  toUpperCase (country d0) = toUpperCase (country d) ->
  countryValueMap (pre ++ d0 :: mid ++ d :: post) =
  countryValueMap (pre ++ mid ++ d :: post).
Proof.
  intros Hk. unfold countryValueMap.
  rewrite !map_app. simpl. rewrite !map_app. simpl. rewrite Hk.
  apply fromEntries_shadowed.
Qed.

End CountryValueMap.

(** ** Drag sessions *)

Section DragSessions.
Import Dom.

Lemma point_eq (p q : Point) : x p = x q -> y p = y q -> p = q.
Proof. destruct p, q; simpl; intros -> ->; reflexivity. Qed.

Lemma displaced_same (t p : Point) : displaced t p p = t.
Proof. apply point_eq; simpl; lia. Qed.

Lemma displaced_chain (t a b c : Point) :
  displaced (displaced t a b) b c = displaced t a c.
Proof. apply point_eq; simpl; lia. Qed.

Lemma last_cons {A : Type} (a d : A) (l : list A) :
  List.last (a :: l) d = List.last l a.
Proof.
  revert a d. induction l as [|b l IH]; intros a d; [reflexivity|].
  change (List.last (a :: b :: l) d) with (List.last (b :: l) d).
  now rewrite !IH.
Qed.

(** *** Snapshot-relative controller *)

(** While dragging at a scale above 1, moves keep everything but the
    translation. *)
Lemma snapshot_moves_keep (ms : list (Ref * MouseEvent)) (s : SnapshotPan.State) :
  let s' := SnapshotPan.run s (SnapshotPan.moves ms) in
  SnapshotPan.scale s' = SnapshotPan.scale s /\
  SnapshotPan.isDragging s' = SnapshotPan.isDragging s /\
  SnapshotPan.dragStart s' = SnapshotPan.dragStart s /\
  SnapshotPan.initialTranslate s' = SnapshotPan.initialTranslate s /\
  SnapshotPan.cursor s' = SnapshotPan.cursor s.
Proof.
  revert s. induction ms as [|[r e] ms IH]; intros s; simpl; [tauto|].
  specialize (IH (SnapshotPan.onMouseMove r e s)). simpl in IH.
  destruct IH as (-> & -> & -> & -> & ->).
  unfold SnapshotPan.onMouseMove.
  destruct (negb (SnapshotPan.isDragging s) || (SnapshotPan.scale s <=? 1));
    [tauto|].
  destruct (getBoundingClientRect r); simpl; tauto.
Qed.

(** One measured move while dragging puts the translation where the
    snapshot says. *)
Lemma snapshot_move_measured (rect : DOMRect) (e : MouseEvent) (s : SnapshotPan.State) :
  SnapshotPan.isDragging s = true -> 1 < SnapshotPan.scale s ->
  SnapshotPan.translate (SnapshotPan.onMouseMove (Some rect) e s)
  = displaced (SnapshotPan.initialTranslate s) (SnapshotPan.dragStart s)
              (relative e rect).
Proof.
  intros Hd Hs. unfold SnapshotPan.onMouseMove. rewrite Hd.
  replace (SnapshotPan.scale s <=? 1) with false by (symmetry; apply Z.leb_gt; lia).
  simpl. apply point_eq; simpl; lia.
Qed.

Lemma snapshot_down_measured (rect : DOMRect) (e : MouseEvent) (s : SnapshotPan.State) :
  1 < SnapshotPan.scale s ->
  SnapshotPan.onMouseDown (Some rect) e s
  = {| SnapshotPan.scale := SnapshotPan.scale s;
       SnapshotPan.translate := SnapshotPan.translate s;
       SnapshotPan.dragStart := relative e rect;
       SnapshotPan.initialTranslate := SnapshotPan.translate s;
       SnapshotPan.cursor := "grabbing";
       SnapshotPan.isDragging := true |}.
Proof.
  intros Hs. unfold SnapshotPan.onMouseDown.
  replace (SnapshotPan.scale s <=? 1) with false by (symmetry; apply Z.leb_gt; lia).
  reflexivity.
Qed.

(** The translation after a [pointerDown] and any moves, in closed form:
    it is read off the snapshot and the last move alone. *)
Lemma snapshot_drag_closed_form
    (s : SnapshotPan.State) (r0 : DOMRect) (e0 : MouseEvent)
    (ms : list (Ref * MouseEvent)) (rn : DOMRect) (en : MouseEvent) :
  1 < SnapshotPan.scale s ->
  List.last ms (Some r0, e0) = (Some rn, en) ->
  SnapshotPan.translate
    (SnapshotPan.run s (SnapshotPan.PointerDown (Some r0) e0 :: SnapshotPan.moves ms))
  = displaced (SnapshotPan.translate s) (relative e0 r0) (relative en rn).
Proof.
  intros Hs Hlast. simpl. rewrite (snapshot_down_measured _ _ _ Hs).
  set (s1 := SnapshotPan.mkState _ _ _ _ _ _).
  induction ms as [|m ms' _] using rev_ind.
  - simpl in Hlast. injection Hlast as <- <-. simpl.
    now rewrite displaced_same.
  - rewrite List.last_last in Hlast. subst m.
    unfold SnapshotPan.moves, SnapshotPan.run.
    rewrite map_app, fold_left_app. simpl.
    pose proof (snapshot_moves_keep ms' s1) as (Hsc & Hdr & Hds & Hit & _).
    unfold SnapshotPan.run, SnapshotPan.moves in Hsc, Hdr, Hds, Hit.
    rewrite snapshot_move_measured.
    + now rewrite Hds, Hit.
    + now rewrite Hdr.
    + now rewrite Hsc.
Qed.

(** *** Incremental controller *)

Lemma incremental_moves_closed_form
    (ms : list MouseEvent) (s : IncrementalPan.State) (e0 : MouseEvent) :
  IncrementalPan.isDragging s = true -> 1 < IncrementalPan.scale s ->
  IncrementalPan.dragStart s = client e0 ->
  IncrementalPan.translate (IncrementalPan.run s (IncrementalPan.moves ms))
  = displaced (IncrementalPan.translate s) (client e0) (client (List.last ms e0)).
Proof.
  revert s e0. induction ms as [|e ms IH]; intros s e0 Hd Hs Hstart.
  - simpl. now rewrite displaced_same.
  - rewrite last_cons.
    assert (Hstep : IncrementalPan.onMouseMove e s
              = {| IncrementalPan.scale := IncrementalPan.scale s;
                   IncrementalPan.translateX :=
                     IncrementalPan.translateX s + (clientX e - clientX e0);
                   IncrementalPan.translateY :=
                     IncrementalPan.translateY s + (clientY e - clientY e0);
                   IncrementalPan.isDragging := true;
                   IncrementalPan.dragStart := client e;
                   IncrementalPan.cursor := IncrementalPan.cursor s |}).
    { unfold IncrementalPan.onMouseMove. rewrite Hd, Hstart.
      replace (IncrementalPan.scale s <=? 1) with false
        by (symmetry; apply Z.leb_gt; lia).
      reflexivity. }
    change (IncrementalPan.run s (IncrementalPan.moves (e :: ms)))
      with (IncrementalPan.run (IncrementalPan.onMouseMove e s)
              (IncrementalPan.moves ms)).
    rewrite (IH _ e); rewrite Hstep; simpl; try reflexivity; try assumption.
    apply point_eq; simpl; lia.
Qed.

Lemma incremental_drag_closed_form
    (s : IncrementalPan.State) (e0 : MouseEvent) (ms : list MouseEvent) :
  1 < IncrementalPan.scale s ->
  IncrementalPan.translate
    (IncrementalPan.run s (IncrementalPan.PointerDown e0 :: IncrementalPan.moves ms))
  = displaced (IncrementalPan.translate s) (client e0) (client (List.last ms e0)).
Proof.
  intros Hs.
  change (IncrementalPan.run s
            (IncrementalPan.PointerDown e0 :: IncrementalPan.moves ms))
    with (IncrementalPan.run (IncrementalPan.onMouseDown e0 s)
            (IncrementalPan.moves ms)).
  assert (Hdown : IncrementalPan.onMouseDown e0 s
            = {| IncrementalPan.scale := IncrementalPan.scale s;
                 IncrementalPan.translateX := IncrementalPan.translateX s;
                 IncrementalPan.translateY := IncrementalPan.translateY s;
                 IncrementalPan.isDragging := true;
                 IncrementalPan.dragStart := client e0;
                 IncrementalPan.cursor := "grabbing" |}).
  { unfold IncrementalPan.onMouseDown.
    replace (IncrementalPan.scale s <=? 1) with false
      by (symmetry; apply Z.leb_gt; lia).
    reflexivity. }
  rewrite (incremental_moves_closed_form ms _ e0); rewrite Hdown; simpl;
    try reflexivity; assumption.
Qed.

(** [pointerUp] never touches the transform. *)
Lemma snapshot_run_up (s : SnapshotPan.State) (evs : list SnapshotPan.Event) :
  SnapshotPan.translate (SnapshotPan.run s (evs ++ [SnapshotPan.PointerUp]))
  = SnapshotPan.translate (SnapshotPan.run s evs).
Proof. unfold SnapshotPan.run. now rewrite fold_left_app. Qed.

Lemma incremental_run_up (s : IncrementalPan.State) (evs : list IncrementalPan.Event) :
  IncrementalPan.translate (IncrementalPan.run s (evs ++ [IncrementalPan.PointerUp]))
  = IncrementalPan.translate (IncrementalPan.run s evs).
Proof. unfold IncrementalPan.run. now rewrite fold_left_app. Qed.

End DragSessions.

(** ** The interaction controller *)

Section Controller.
Import Dom.

Lemma last_map {A B : Type} (f : A -> B) (l : list A) (d : A) :
  List.last (map f l) (f d) = f (List.last l d).
Proof.
  revert d. induction l as [|a l IH]; intros d; [reflexivity|].
  change (map f (a :: l)) with (f a :: map f l).
  now rewrite !last_cons, IH.
Qed.

(** Below or at scale 1 a panning handler leaves the transform alone. *)
Lemma snapshot_pan_step_unzoomed (s : SnapshotPan.State) (ev : SnapshotPan.Event) :
  SnapshotPan.scale s <= 1 -> SnapshotPan.is_pan ev = true ->
  SnapshotPan.translate (SnapshotPan.step s ev) = SnapshotPan.translate s /\
  SnapshotPan.scale (SnapshotPan.step s ev) = SnapshotPan.scale s.
Proof.
  intros Hs Hp. apply Z.leb_le in Hs.
  destruct ev as [r e|r e| | |e]; simpl in *; try discriminate;
    unfold SnapshotPan.onMouseDown, SnapshotPan.onMouseMove;
    rewrite ?Hs, ?orb_true_r; auto.
Qed.

Lemma snapshot_pan_run_unzoomed (evs : list SnapshotPan.Event) (s : SnapshotPan.State) :
  SnapshotPan.scale s <= 1 -> forallb SnapshotPan.is_pan evs = true ->
  SnapshotPan.translate (SnapshotPan.run s evs) = SnapshotPan.translate s /\
  SnapshotPan.scale (SnapshotPan.run s evs) = SnapshotPan.scale s.
Proof.
  revert s. induction evs as [|ev evs IH]; intros s Hs Hp; [auto|].
  simpl in Hp. apply andb_true_iff in Hp as [Hev Hp].
  destruct (snapshot_pan_step_unzoomed s ev Hs Hev) as [Ht Hsc].
  change (SnapshotPan.run s (ev :: evs)) with (SnapshotPan.run (SnapshotPan.step s ev) evs).
  destruct (IH (SnapshotPan.step s ev)) as [Ht' Hsc']; [lia|exact Hp|].
  rewrite Ht', Hsc'. auto.
Qed.

Lemma incremental_pan_step_unzoomed (s : IncrementalPan.State) (ev : IncrementalPan.Event) :
  IncrementalPan.scale s <= 1 -> IncrementalPan.is_pan ev = true ->
  IncrementalPan.translate (IncrementalPan.step s ev) = IncrementalPan.translate s /\
  IncrementalPan.scale (IncrementalPan.step s ev) = IncrementalPan.scale s.
Proof.
  intros Hs Hp. apply Z.leb_le in Hs.
  destruct ev as [e|e| | |e]; simpl in *; try discriminate;
    unfold IncrementalPan.onMouseDown, IncrementalPan.onMouseMove;
    rewrite ?Hs, ?orb_true_r; auto.
Qed.

Lemma incremental_pan_run_unzoomed (evs : list IncrementalPan.Event) (s : IncrementalPan.State) :
  IncrementalPan.scale s <= 1 -> forallb IncrementalPan.is_pan evs = true ->
  IncrementalPan.translate (IncrementalPan.run s evs) = IncrementalPan.translate s /\
  IncrementalPan.scale (IncrementalPan.run s evs) = IncrementalPan.scale s.
Proof.
  revert s. induction evs as [|ev evs IH]; intros s Hs Hp; [auto|].
  simpl in Hp. apply andb_true_iff in Hp as [Hev Hp].
  destruct (incremental_pan_step_unzoomed s ev Hs Hev) as [Ht Hsc].
  change (IncrementalPan.run s (ev :: evs)) with (IncrementalPan.run (IncrementalPan.step s ev) evs).
  destruct (IH (IncrementalPan.step s ev)) as [Ht' Hsc']; [lia|exact Hp|].
  rewrite Ht', Hsc'. auto.
Qed.

Lemma snapshot_session_is_pan (r : Ref) (e0 : MouseEvent) (ms : list (Ref * MouseEvent)) :
  forallb SnapshotPan.is_pan (SnapshotPan.drag_session r e0 ms) = true.
Proof.
  unfold SnapshotPan.drag_session, SnapshotPan.moves. simpl.
  rewrite forallb_app. simpl. rewrite andb_true_r.
  induction ms as [|m ms IH]; simpl; auto.
Qed.

Lemma incremental_session_is_pan (e0 : MouseEvent) (ms : list MouseEvent) :
  forallb IncrementalPan.is_pan (IncrementalPan.drag_session e0 ms) = true.
Proof.
  unfold IncrementalPan.drag_session, IncrementalPan.moves. simpl.
  rewrite forallb_app. simpl. rewrite andb_true_r.
  induction ms as [|m ms IH]; simpl; auto.
Qed.

End Controller.

(** ** Renders between events *)

Section Rendering.
Import Dom.

(** Right after a render, a handler does what the sequential controller
    does. *)
Lemma incremental_step_committed (s : IncrementalPan.State) (ev : IncrementalPan.Event) :
  IncrementalRender.step (IncrementalRender.committed s) (IncrementalRender.Handle ev)
  = {| IncrementalRender.shown := s;
       IncrementalRender.queued := IncrementalPan.step s ev |}.
Proof.
  destruct ev as [ e | e | | | e ]; simpl.
  - unfold IncrementalRender.onMouseDown, IncrementalPan.onMouseDown. simpl.
    now destruct (IncrementalPan.scale s <=? 1).
  - unfold IncrementalRender.onMouseMove, IncrementalPan.onMouseMove. simpl.
    now destruct (negb _ || _).
  - reflexivity.
  - reflexivity.
  - unfold IncrementalRender.onDoubleClick, IncrementalPan.onDoubleClick. simpl.
    now destruct (IncrementalPan.scale s =? 4).
Qed.

Lemma snapshot_step_committed (s : SnapshotPan.State) (ev : SnapshotPan.Event) :
  SnapshotRender.step (SnapshotRender.committed s) (SnapshotRender.Handle ev)
  = {| SnapshotRender.shown := s;
       SnapshotRender.queued := SnapshotPan.step s ev |}.
Proof.
  destruct ev as [ r e | r e | | | e ]; simpl.
  - unfold SnapshotRender.onMouseDown, SnapshotPan.onMouseDown. simpl.
    destruct (SnapshotPan.scale s <=? 1); [reflexivity|].
    now destruct (getBoundingClientRect r).
  - unfold SnapshotRender.onMouseMove, SnapshotPan.onMouseMove. simpl.
    destruct (negb _ || _); [reflexivity|].
    now destruct (getBoundingClientRect r).
  - reflexivity.
  - reflexivity.
  - unfold SnapshotRender.onDoubleClick, SnapshotPan.onDoubleClick. simpl.
    now destruct (SnapshotPan.scale s =? 4).
Qed.

(** With a render after every event the widget goes through the states of
    the sequential controller. *)
Lemma incremental_run_rendered (evs : list IncrementalPan.Event) (s : IncrementalPan.State) :
  IncrementalRender.run (IncrementalRender.committed s)
    (IncrementalRender.rendered_after_each evs)
  = IncrementalRender.committed (IncrementalPan.run s evs).
Proof.
  revert s. induction evs as [|ev evs IH]; intros s; [reflexivity|].
  change (IncrementalRender.run (IncrementalRender.committed s)
            (IncrementalRender.rendered_after_each (ev :: evs)))
    with (IncrementalRender.run
            (IncrementalRender.render
               (IncrementalRender.step (IncrementalRender.committed s)
                  (IncrementalRender.Handle ev)))
            (IncrementalRender.rendered_after_each evs)).
  rewrite incremental_step_committed. apply IH.
Qed.

Lemma snapshot_run_rendered (evs : list SnapshotPan.Event) (s : SnapshotPan.State) :
  SnapshotRender.run (SnapshotRender.committed s)
    (SnapshotRender.rendered_after_each evs)
  = SnapshotRender.committed (SnapshotPan.run s evs).
Proof.
  revert s. induction evs as [|ev evs IH]; intros s; [reflexivity|].
  change (SnapshotRender.run (SnapshotRender.committed s)
            (SnapshotRender.rendered_after_each (ev :: evs)))
    with (SnapshotRender.run
            (SnapshotRender.render
               (SnapshotRender.step (SnapshotRender.committed s)
                  (SnapshotRender.Handle ev)))
            (SnapshotRender.rendered_after_each evs)).
  rewrite snapshot_step_committed. apply IH.
Qed.

(** Moves that reach the handler of one render all measure from the
    [dragStart] of that render. *)
Lemma incremental_batch (ms : list MouseEvent) (w : IncrementalRender.Widget) :
  IncrementalPan.isDragging (IncrementalRender.shown w) = true ->
  1 < IncrementalPan.scale (IncrementalRender.shown w) ->
  IncrementalPan.translate
    (IncrementalRender.queued (IncrementalRender.run w (IncrementalRender.batch ms)))
  = IncrementalRender.accumulated
      (IncrementalPan.translate (IncrementalRender.queued w))
      (IncrementalPan.dragStart (IncrementalRender.shown w)) ms.
Proof.
  intros Hd Hs. revert w Hd Hs.
  induction ms as [|e ms IH]; intros w Hd Hs; [reflexivity|].
  change (IncrementalRender.run w (IncrementalRender.batch (e :: ms)))
    with (IncrementalRender.run (IncrementalRender.onMouseMove e w)
            (IncrementalRender.batch ms)).
  assert (Hstep : IncrementalRender.shown (IncrementalRender.onMouseMove e w)
                  = IncrementalRender.shown w
                  /\ IncrementalPan.translate
                       (IncrementalRender.queued (IncrementalRender.onMouseMove e w))
                     = displaced (IncrementalPan.translate (IncrementalRender.queued w))
                         (IncrementalPan.dragStart (IncrementalRender.shown w))
                         (client e)).
  { unfold IncrementalRender.onMouseMove. rewrite Hd.
    replace (IncrementalPan.scale (IncrementalRender.shown w) <=? 1) with false
      by (symmetry; apply Z.leb_gt; lia).
    split; reflexivity. }
  destruct Hstep as [Hshown Htr].
  rewrite IH by (rewrite Hshown; assumption).
  rewrite Hshown, Htr. reflexivity.
Qed.

(** During a drag the snapshot-relative handlers read nothing that waits
    for a render: moves and renders in any order leave what the moves
    alone would. *)
Lemma snapshot_interleaved (sched : list (option (Ref * MouseEvent)))
    (w : SnapshotRender.Widget) :
  SnapshotPan.isDragging (SnapshotRender.shown w) = true ->
  1 < SnapshotPan.scale (SnapshotRender.shown w) ->
  SnapshotPan.isDragging (SnapshotRender.queued w) = true ->
  SnapshotPan.scale (SnapshotRender.queued w) = SnapshotPan.scale (SnapshotRender.shown w) ->
  SnapshotRender.queued (SnapshotRender.run w (SnapshotRender.interleaved sched))
  = SnapshotPan.run (SnapshotRender.queued w)
      (SnapshotPan.moves (SnapshotRender.moves_of sched)).
Proof.
  revert w. induction sched as [|[[r e]|] sched IH]; intros w Hd Hs Hdq Hsq.
  - reflexivity.
  - change (SnapshotRender.run w (SnapshotRender.interleaved (Some (r, e) :: sched)))
      with (SnapshotRender.run (SnapshotRender.onMouseMove r e w)
              (SnapshotRender.interleaved sched)).
    change (SnapshotPan.run (SnapshotRender.queued w)
              (SnapshotPan.moves (SnapshotRender.moves_of (Some (r, e) :: sched))))
      with (SnapshotPan.run (SnapshotPan.onMouseMove r e (SnapshotRender.queued w))
              (SnapshotPan.moves (SnapshotRender.moves_of sched))).
    assert (Hstep : SnapshotRender.shown (SnapshotRender.onMouseMove r e w)
                    = SnapshotRender.shown w
                    /\ SnapshotRender.queued (SnapshotRender.onMouseMove r e w)
                       = SnapshotPan.onMouseMove r e (SnapshotRender.queued w)).
    { unfold SnapshotRender.onMouseMove, SnapshotPan.onMouseMove.
      rewrite Hd, Hdq, Hsq.
      replace (SnapshotPan.scale (SnapshotRender.shown w) <=? 1) with false
        by (symmetry; apply Z.leb_gt; lia).
      simpl. destruct (getBoundingClientRect r); split; reflexivity. }
    destruct Hstep as [Hshown Hq].
    assert (Hkeep : SnapshotPan.isDragging (SnapshotPan.onMouseMove r e (SnapshotRender.queued w)) = true
                    /\ SnapshotPan.scale (SnapshotPan.onMouseMove r e (SnapshotRender.queued w))
                       = SnapshotPan.scale (SnapshotRender.queued w)).
    { unfold SnapshotPan.onMouseMove. destruct (negb _ || _); [auto|].
      destruct (getBoundingClientRect r); simpl; auto. }
    destruct Hkeep as [Hkd Hks].
    rewrite IH; rewrite ?Hshown, ?Hq; try assumption; try congruence.
  - change (SnapshotRender.run w (SnapshotRender.interleaved (None :: sched)))
      with (SnapshotRender.run (SnapshotRender.render w)
              (SnapshotRender.interleaved sched)).
    rewrite IH; simpl; try assumption; try reflexivity. lia.
Qed.

(** With a render after every event and a fixed box, a pointerDown at
    scale > 1 and any moves leave the two controllers on the same
    translation. *)
Lemma drag_agreement_rendered_per_event
    (s : SnapshotPan.State) (si : IncrementalPan.State)
    (rect : DOMRect) (e0 : MouseEvent) (ms : list MouseEvent) :
  1 < SnapshotPan.scale s ->
  IncrementalPan.scale si = SnapshotPan.scale s ->
  IncrementalPan.translate si = SnapshotPan.translate s ->
  IncrementalPan.translate
    (IncrementalPan.run si (IncrementalPan.PointerDown e0 :: IncrementalPan.moves ms))
  = SnapshotPan.translate
      (SnapshotPan.run s
         (SnapshotPan.PointerDown (Some rect) e0
            :: SnapshotPan.moves (map (fun e => (Some rect, e)) ms))).
Proof.
  intros Hs Hsc Htr.
  rewrite incremental_drag_closed_form by lia.
  rewrite (snapshot_drag_closed_form s rect e0 _ rect (List.last ms e0) Hs).
  - rewrite Htr. apply point_eq; simpl; lia.
  - apply (last_map (fun e => (Some rect, e))).
Qed.

End Rendering.

(** * Specification of the widget *)

Section Specification.
Import Dom JsNumber DataBinding.



(** C2. The doubleClick transition, in any state of either controller:
    at scale 4 the scale becomes 1 and the translation exactly (0,0);
    at any other scale the scale doubles and the translation becomes twice
    the old one minus the click position relative to the bounding box of
    the container.  Hence from scale 1 three double-clicks give the scales
    2, 4, 1 (8 is never reached), the translation being (0,0) after the
    third. *)
Theorem C2_double_click_zoom_toggle
    (s : SnapshotPan.State) (si : IncrementalPan.State) (e : MouseEvent) :
  let click := relative e (currentTarget e) in
  (SnapshotPan.scale s = 4 ->
     SnapshotPan.scale (SnapshotPan.onDoubleClick e s) = 1 /\
     SnapshotPan.translate (SnapshotPan.onDoubleClick e s) = {| x := 0; y := 0 |})
  /\ (SnapshotPan.scale s <> 4 ->
     SnapshotPan.scale (SnapshotPan.onDoubleClick e s) = 2 * SnapshotPan.scale s /\
     SnapshotPan.translate (SnapshotPan.onDoubleClick e s)
       = {| x := 2 * x (SnapshotPan.translate s) - x click;
            y := 2 * y (SnapshotPan.translate s) - y click |})
  /\ (IncrementalPan.scale si = 4 ->
     IncrementalPan.scale (IncrementalPan.onDoubleClick e si) = 1 /\
     IncrementalPan.translate (IncrementalPan.onDoubleClick e si) = {| x := 0; y := 0 |})
  /\ (IncrementalPan.scale si <> 4 ->
     IncrementalPan.scale (IncrementalPan.onDoubleClick e si) = 2 * IncrementalPan.scale si /\
     IncrementalPan.translate (IncrementalPan.onDoubleClick e si)
       = {| x := 2 * x (IncrementalPan.translate si) - x click;
            y := 2 * y (IncrementalPan.translate si) - y click |})
  /\ (SnapshotPan.scale s = 1 -> forall e1 e2 e3,
     let after evs := SnapshotPan.run s (map SnapshotPan.DoubleClick evs) in
     SnapshotPan.scale (after [e1]) = 2 /\
     SnapshotPan.scale (after [e1; e2]) = 4 /\
     SnapshotPan.scale (after [e1; e2; e3]) = 1 /\
     SnapshotPan.translate (after [e1; e2; e3]) = {| x := 0; y := 0 |})
  /\ (IncrementalPan.scale si = 1 -> forall e1 e2 e3,
     let after evs := IncrementalPan.run si (map IncrementalPan.DoubleClick evs) in
     IncrementalPan.scale (after [e1]) = 2 /\
     IncrementalPan.scale (after [e1; e2]) = 4 /\
     IncrementalPan.scale (after [e1; e2; e3]) = 1 /\
     IncrementalPan.translate (after [e1; e2; e3]) = {| x := 0; y := 0 |}).
Proof.
  intros click.
  assert (Hsc : forall e' t, SnapshotPan.scale (SnapshotPan.onDoubleClick e' t)
            = if SnapshotPan.scale t =? 4 then 1 else SnapshotPan.scale t * 2)
    by (intros; unfold SnapshotPan.onDoubleClick; destruct (_ =? 4); reflexivity).
  assert (Htr : forall e' t, SnapshotPan.scale t = 4 ->
            SnapshotPan.translate (SnapshotPan.onDoubleClick e' t) = {| x := 0; y := 0 |})
    by (intros e' t Ht; unfold SnapshotPan.onDoubleClick; rewrite Ht; reflexivity).
  assert (Hsci : forall e' t, IncrementalPan.scale (IncrementalPan.onDoubleClick e' t)
            = if IncrementalPan.scale t =? 4 then 1 else IncrementalPan.scale t * 2)
    by (intros; unfold IncrementalPan.onDoubleClick; destruct (_ =? 4); reflexivity).
  assert (Htri : forall e' t, IncrementalPan.scale t = 4 ->
            IncrementalPan.translate (IncrementalPan.onDoubleClick e' t) = {| x := 0; y := 0 |})
    by (intros e' t Ht; unfold IncrementalPan.onDoubleClick; rewrite Ht; reflexivity).
  split; [|split; [|split; [|split; [|split]]]].
  - intros H. rewrite Hsc, H. auto.
  - intros H. rewrite Hsc. apply Z.eqb_neq in H.
    unfold SnapshotPan.onDoubleClick. rewrite H. simpl. split; [lia | reflexivity].
  - intros H. rewrite Hsci, H. auto.
  - intros H. rewrite Hsci. apply Z.eqb_neq in H.
    unfold IncrementalPan.onDoubleClick. rewrite H. simpl. split; [lia | reflexivity].
  - intros H e1 e2 e3 after. subst after. unfold SnapshotPan.run. simpl.
    assert (H1 : SnapshotPan.scale (SnapshotPan.onDoubleClick e1 s) = 2)
      by (rewrite Hsc, H; reflexivity).
    assert (H2 : SnapshotPan.scale
                   (SnapshotPan.onDoubleClick e2 (SnapshotPan.onDoubleClick e1 s)) = 4)
      by (rewrite Hsc, H1; reflexivity).
    repeat split; try assumption.
    + rewrite Hsc, H2. reflexivity.
    + apply Htr, H2.
  - intros H e1 e2 e3 after. subst after. unfold IncrementalPan.run. simpl.
    assert (H1 : IncrementalPan.scale (IncrementalPan.onDoubleClick e1 si) = 2)
      by (rewrite Hsci, H; reflexivity).
    assert (H2 : IncrementalPan.scale
                   (IncrementalPan.onDoubleClick e2 (IncrementalPan.onDoubleClick e1 si)) = 4)
      by (rewrite Hsci, H1; reflexivity).
    repeat split; try assumption.
    + rewrite Hsci, H2. reflexivity.
    + apply Htri, H2.
Qed.

Lemma C2_double_click_zoom_toggle_witness :
  let after evs := SnapshotPan.run SnapshotPan.initial (map SnapshotPan.DoubleClick evs) in
  SnapshotPan.scale SnapshotPan.initial = 1 /\
  SnapshotPan.scale (after [pointer_at 10 20]) = 2 /\
  SnapshotPan.scale (after [pointer_at 10 20; pointer_at 30 40]) = 4 /\
  SnapshotPan.scale (after [pointer_at 10 20; pointer_at 30 40; pointer_at 5 6]) = 1 /\
  SnapshotPan.translate (after [pointer_at 10 20; pointer_at 30 40; pointer_at 5 6])
    = {| x := 0; y := 0 |}.
Proof.
  intros after. split; [reflexivity|].
  destruct (C2_double_click_zoom_toggle SnapshotPan.initial IncrementalPan.initial
              (pointer_at 0 0)) as (_ & _ & _ & _ & Hseq & _).
  exact (Hseq eq_refl (pointer_at 10 20) (pointer_at 30 40) (pointer_at 5 6)).
Defined.

(** C5. While the scale is at most 1, panning never changes the transform:
    each of pointerDown, pointerMove, pointerUp (and pointerLeave) leaves the
    translation and the scale as they were, and so does every sequence
    pointerDown, pointerMove*, pointerUp, whatever the container
    measurement and whatever the dragging flag; this holds for both
    controllers. *)
Theorem C5_no_panning_unless_zoomed
    (s : SnapshotPan.State) (si : IncrementalPan.State) :
  SnapshotPan.scale s <= 1 ->
  IncrementalPan.scale si <= 1 ->
  (forall ev, SnapshotPan.is_pan ev = true ->
     SnapshotPan.translate (SnapshotPan.step s ev) = SnapshotPan.translate s /\
     SnapshotPan.scale (SnapshotPan.step s ev) = SnapshotPan.scale s)
  /\ (forall r e0 ms,
     SnapshotPan.translate (SnapshotPan.run s (SnapshotPan.drag_session r e0 ms))
       = SnapshotPan.translate s /\
     SnapshotPan.scale (SnapshotPan.run s (SnapshotPan.drag_session r e0 ms))
       = SnapshotPan.scale s)
  /\ (forall ev, IncrementalPan.is_pan ev = true ->
     IncrementalPan.translate (IncrementalPan.step si ev) = IncrementalPan.translate si /\
     IncrementalPan.scale (IncrementalPan.step si ev) = IncrementalPan.scale si)
  /\ (forall e0 ms,
     IncrementalPan.translate (IncrementalPan.run si (IncrementalPan.drag_session e0 ms))
       = IncrementalPan.translate si /\
     IncrementalPan.scale (IncrementalPan.run si (IncrementalPan.drag_session e0 ms))
       = IncrementalPan.scale si).
Proof.
  intros Hs Hsi. split; [|split; [|split]].
  - intros ev Hev. now apply snapshot_pan_step_unzoomed.
  - intros r e0 ms. apply snapshot_pan_run_unzoomed; [exact Hs|].
    apply snapshot_session_is_pan.
  - intros ev Hev. now apply incremental_pan_step_unzoomed.
  - intros e0 ms. apply incremental_pan_run_unzoomed; [exact Hsi|].
    apply incremental_session_is_pan.
Qed.

Lemma C5_no_panning_unless_zoomed_witness :
  SnapshotPan.translate
    (SnapshotPan.run SnapshotPan.initial
       (SnapshotPan.drag_session (Some container_at_origin) (pointer_at 100 100)
          [(Some container_at_origin, pointer_at 150 130)]))
    = {| x := 0; y := 0 |}
  /\ IncrementalPan.translate
       (IncrementalPan.run IncrementalPan.initial
          (IncrementalPan.drag_session (pointer_at 100 100) [pointer_at 150 130]))
    = {| x := 0; y := 0 |}.
Proof.
  destruct (C5_no_panning_unless_zoomed SnapshotPan.initial IncrementalPan.initial)
    as (_ & Hs & _ & Hi); [simpl; lia | simpl; lia |].
  split.
  - exact (proj1 (Hs (Some container_at_origin) (pointer_at 100 100)
                     [(Some container_at_origin, pointer_at 150 130)])).
  - exact (proj1 (Hi (pointer_at 100 100) [pointer_at 150 130])).
Defined.

(** C9 (amended).  With a fixed bounding box of the container, integer
    pointer coordinates, box offsets and translation, and a render after
    every event, the incremental controller and the snapshot-relative one
    end a pointerDown at scale > 1 followed by any pointerMove events on the
    same translation, provided they start from the same scale and
    translation. *)
Theorem C9_incremental_agrees_with_snapshot
    (s : SnapshotPan.State) (si : IncrementalPan.State)
    (rect : DOMRect) (e0 : MouseEvent) (ms : list MouseEvent) :
  1 < SnapshotPan.scale s ->
  IncrementalPan.scale si = SnapshotPan.scale s ->
  IncrementalPan.translate si = SnapshotPan.translate s ->
  IncrementalPan.translate
    (IncrementalRender.queued
       (IncrementalRender.run (IncrementalRender.committed si)
          (IncrementalRender.rendered_after_each
             (IncrementalPan.PointerDown e0 :: IncrementalPan.moves ms))))
  = SnapshotPan.translate
      (SnapshotRender.queued
         (SnapshotRender.run (SnapshotRender.committed s)
            (SnapshotRender.rendered_after_each
               (SnapshotPan.PointerDown (Some rect) e0
                  :: SnapshotPan.moves (map (fun e => (Some rect, e)) ms))))).
Proof.
  intros Hs Hsc Htr.
  rewrite incremental_run_rendered, snapshot_run_rendered.
  now apply drag_agreement_rendered_per_event.
Qed.

Lemma C9_incremental_agrees_with_snapshot_witness :
  let rect := {| left := 8; top := 64 |} in
  let s := SnapshotPan.run SnapshotPan.initial
             [SnapshotPan.DoubleClick (pointer_at 40 50)] in
  let si := IncrementalPan.run IncrementalPan.initial
              [IncrementalPan.DoubleClick (pointer_at 40 50)] in
  let ms := [pointer_at 150 130; pointer_at 120 90; pointer_at 300 10] in
  IncrementalPan.translate
    (IncrementalRender.queued
       (IncrementalRender.run (IncrementalRender.committed si)
          (IncrementalRender.rendered_after_each
             (IncrementalPan.PointerDown (pointer_at 100 100)
                :: IncrementalPan.moves ms))))
  = SnapshotPan.translate
      (SnapshotRender.queued
         (SnapshotRender.run (SnapshotRender.committed s)
            (SnapshotRender.rendered_after_each
               (SnapshotPan.PointerDown (Some rect) (pointer_at 100 100)
                  :: SnapshotPan.moves (map (fun e => (Some rect, e)) ms))))).
Proof.
  intros rect s si ms.
  apply (C9_incremental_agrees_with_snapshot s si rect (pointer_at 100 100) ms);
    reflexivity.
Defined.

(** C9, as stated, fails twice over.  Two moves handled by the same render:
    from scale 2 and translation (0,0), a pointerDown at (100,100), a
    render, then moves to (150,130) and (120,90) before the next render
    leave the incremental controller on (70,20), since both moves measure
    from the [dragStart] of that render, and the snapshot-relative one on
    (20,-10).  A fractional box: with the box at 0.7, a pointerDown at 100
    and one move to 130, the snapshot-relative arithmetic gives
    30.000000000000014 in binary64 and the incremental one 30. *)
Lemma C9_batched_moves_or_a_fractional_box_break_the_agreement :
  let si := IncrementalPan.run IncrementalPan.initial
              [IncrementalPan.DoubleClick (pointer_at 0 0)] in
  let s := SnapshotPan.run SnapshotPan.initial
             [SnapshotPan.DoubleClick (pointer_at 0 0)] in
  let box := Some container_at_origin in
  1 < SnapshotPan.scale s /\
  IncrementalPan.scale si = SnapshotPan.scale s /\
  IncrementalPan.translate si = SnapshotPan.translate s /\
  IncrementalPan.translate
    (IncrementalRender.queued
       (IncrementalRender.run (IncrementalRender.committed si)
          [ IncrementalRender.Handle (IncrementalPan.PointerDown (pointer_at 100 100));
            IncrementalRender.Render;
            IncrementalRender.Handle (IncrementalPan.PointerMove (pointer_at 150 130));
            IncrementalRender.Handle (IncrementalPan.PointerMove (pointer_at 120 90));
            IncrementalRender.Render ]))
    = {| x := 70; y := 20 |} /\
  SnapshotPan.translate
    (SnapshotRender.queued
       (SnapshotRender.run (SnapshotRender.committed s)
          [ SnapshotRender.Handle (SnapshotPan.PointerDown box (pointer_at 100 100));
            SnapshotRender.Render;
            SnapshotRender.Handle (SnapshotPan.PointerMove box (pointer_at 150 130));
            SnapshotRender.Handle (SnapshotPan.PointerMove box (pointer_at 120 90));
            SnapshotRender.Render ]))
    = {| x := 20; y := -10 |} /\
  PrimFloat.eqb
    (Binary64.snapshot_translate 0
       (Binary64.snapshot_dragStart 100 Binary64.seven_tenths) 130
       Binary64.seven_tenths)
    0x1.e000000000004p+4 = true /\
  PrimFloat.eqb (Binary64.incremental_translate 0 100 130) 30 = true /\
  PrimFloat.eqb
    (Binary64.snapshot_translate 0
       (Binary64.snapshot_dragStart 100 Binary64.seven_tenths) 130
       Binary64.seven_tenths)
    (Binary64.incremental_translate 0 100 130) = false.
Proof.
  intros si s box. repeat split.
Qed.

(** C8 (amended).  The handlers of the snapshot-relative controller are
    total functions of the state, the event and the container reference.
    With the container reference empty, pointerMove leaves the whole state
    as it is, and pointerDown records no snapshot and leaves the transform
    as it is (at scale 1 or below it leaves the whole state as it is).
    pointerLeave always ends in the idle state and leaves the transform as
    it is, whether or not a pointerDown came before. *)
Theorem C8_handlers_without_measurement (s : SnapshotPan.State) (e : MouseEvent) :
  SnapshotPan.onMouseMove None e s = s
  /\ (let s' := SnapshotPan.onMouseDown None e s in
      SnapshotPan.translate s' = SnapshotPan.translate s /\
      SnapshotPan.scale s' = SnapshotPan.scale s /\
      SnapshotPan.dragStart s' = SnapshotPan.dragStart s /\
      SnapshotPan.initialTranslate s' = SnapshotPan.initialTranslate s)
  /\ (SnapshotPan.scale s <= 1 -> SnapshotPan.onMouseDown None e s = s)
  /\ (SnapshotPan.isDragging (SnapshotPan.onMouseLeave s) = false /\
      SnapshotPan.translate (SnapshotPan.onMouseLeave s) = SnapshotPan.translate s /\
      SnapshotPan.scale (SnapshotPan.onMouseLeave s) = SnapshotPan.scale s).
Proof.
  split; [|split; [|split]].
  - unfold SnapshotPan.onMouseMove. simpl.
    now destruct (negb (SnapshotPan.isDragging s) || (SnapshotPan.scale s <=? 1)).
  - unfold SnapshotPan.onMouseDown. simpl.
    destruct (SnapshotPan.scale s <=? 1); simpl; auto.
  - intros H. apply Z.leb_le in H. unfold SnapshotPan.onMouseDown. now rewrite H.
  - simpl. destruct (SnapshotPan.isDragging s); auto.
Qed.

Lemma C8_handlers_without_measurement_witness :
  SnapshotPan.onMouseDown None (pointer_at 100 100) SnapshotPan.initial
    = SnapshotPan.initial.
Proof.
  destruct (C8_handlers_without_measurement SnapshotPan.initial (pointer_at 100 100))
    as (_ & _ & Hidle & _).
  apply Hidle. simpl. lia.
Defined.

(** C8, as stated, fails: after one double-click (scale 2) a pointerDown
    that finds the container reference empty is not a no-op, it raises the
    dragging flag and changes the cursor. *)
Lemma C8_pointer_down_unmeasured_is_not_noop :
  let s := SnapshotPan.run SnapshotPan.initial
             [SnapshotPan.DoubleClick (pointer_at 0 0)] in
  let s' := SnapshotPan.onMouseDown None (pointer_at 100 100) s in
  SnapshotPan.isDragging s = false /\ SnapshotPan.isDragging s' = true /\
  SnapshotPan.cursor s = "grab" /\ SnapshotPan.cursor s' = "grabbing" /\
  s' <> s.
Proof.
  intros s s'. repeat split; discriminate.
Qed.

Lemma coerced_NaN_free (d : list DataItem) :
  Forall (fun i => value i <> VNumber NaN) d ->
  existsb is_NaN (map toValue d) = false.
Proof.
  induction 1 as [|i d Hi _ IH]; simpl; [reflexivity|].
  rewrite IH, orb_false_r. unfold toValue.
  destruct (value i) as [[]|]; simpl; congruence.
Qed.

(** C3 (amended).  For every dataset none of whose values is NaN, and every
    item of it with a numeric value n: minValue <= n <= maxValue. *)
Theorem C3_range_bounds_every_numeric_value
    (d : list DataItem) (item : DataItem) (n : number) :
  Forall (fun i => value i <> VNumber NaN) d ->
  In item d ->
  value item = VNumber n ->
  le (data_minValue d) n = true /\ le n (data_maxValue d) = true.
Proof.
  intros Hnan Hin Hval. apply coerced_NaN_free in Hnan.
  assert (Hn : In n (map toValue d)).
  { apply in_map_iff. exists item. unfold toValue. now rewrite Hval. }
  destruct (min_from_spec _ PosInf Hnan eq_refl) as (_ & _ & Hmin).
  destruct (max_from_spec _ NegInf Hnan eq_refl) as (_ & _ & Hmax).
  split; [apply Hmin | apply Hmax]; exact Hn.
Qed.

Lemma C3_range_bounds_every_numeric_value_witness :
  let us := {| country := "us"; value := VNumber (of_Z 7) |} in
  let fr := {| country := "FR"; value := VString "n/a" |} in
  let de := {| country := "de"; value := VNumber (of_Z (-3)) |} in
  le (data_minValue [us; fr; de]) (of_Z 7) = true /\
  le (of_Z 7) (data_maxValue [us; fr; de]) = true.
Proof.
  intros us fr de.
  apply (C3_range_bounds_every_numeric_value [us; fr; de] us (of_Z 7)).
  - repeat constructor; discriminate.
  - simpl. auto.
  - reflexivity.
Defined.

(** C3, as stated, fails on a dataset with a NaN value: the range is then
    (NaN, NaN), and NaN compares below nothing and above nothing, so the
    numeric value 5 of the second item is not within it. *)
Lemma C3_NaN_value_breaks_the_range :
  let us := {| country := "US"; value := VNumber NaN |} in
  let fr := {| country := "FR"; value := VNumber (of_Z 5) |} in
  [us; fr] <> [] /\ In fr [us; fr] /\
  data_minValue [us; fr] = NaN /\ data_maxValue [us; fr] = NaN /\
  le (data_minValue [us; fr]) (of_Z 5) = false /\
  le (of_Z 5) (data_maxValue [us; fr]) = false.
Proof.
  intros us fr. split; [discriminate|]. split; [simpl; auto|].
  repeat split.
Qed.

(** C7. For the empty dataset the range is (Infinity, -Infinity): that is
    what the computation returns, and what every country context then
    carries, with no value for any country. *)
Theorem C7_empty_dataset_range
    (defaultColor : string) (props : Props) (feature : Feature) :
  data_minValue [] = PosInf /\ data_maxValue [] = NegInf
  /\ (data props = [] ->
      minValue (context defaultColor props feature) = PosInf /\
      maxValue (context defaultColor props feature) = NegInf /\
      countryValue (context defaultColor props feature) = None).
Proof.
  split; [reflexivity|]. split; [reflexivity|].
  intros H. unfold context. simpl. rewrite H. repeat split.
Qed.

Lemma C7_empty_dataset_range_witness :
  let props := {| data := []; valuePrefix := None; valueSuffix := None;
                  props_color := None |} in
  let ctx := context "#dd4b39" props {| I := "US"; N := "United States" |} in
  minValue ctx = PosInf /\ maxValue ctx = NegInf /\ countryValue ctx = None.
Proof.
  intros props ctx.
  destruct (C7_empty_dataset_range "#dd4b39" props
              {| I := "US"; N := "United States" |}) as (_ & _ & H).
  apply H. reflexivity.
Defined.




(** C6. A string value counts as 0 in the range computation and nowhere
    else: [toValue] maps it to 0, while the lookup keeps the string itself,
    which is the countryValue of the matching context.  The minValue and
    maxValue of every context are [Math.min] and [Math.max] over the coerced
    values: NaN if a value is NaN; otherwise, on a non-empty dataset, a
    coerced value that is below (above) every coerced value, so that a
    string item forces minValue <= 0 <= maxValue. *)
Theorem C6_strings_count_as_zero_for_the_range_only
    (defaultColor : string) (props : Props) (feature : Feature)
    (pre post : list DataItem) (code text : string) :
  let item := {| country := code; value := VString text |} in
  let coerced := map toValue (data props) in
  let ctx := context defaultColor props feature in
  data props = (pre ++ item :: post)%list ->
  Forall (fun i => toUpperCase (country i) <> toUpperCase code) post ->
  I feature = toUpperCase code ->
  toValue item = of_Z 0
  /\ countryValue ctx = Some (VString text)
  /\ minValue ctx = Math_min coerced /\ maxValue ctx = Math_max coerced
  /\ (existsb is_NaN coerced = true -> minValue ctx = NaN /\ maxValue ctx = NaN)
  /\ (existsb is_NaN coerced = false ->
      In (minValue ctx) coerced /\ In (maxValue ctx) coerced /\
      (forall n, In n coerced -> le (minValue ctx) n = true /\ le n (maxValue ctx) = true) /\
      le (minValue ctx) (of_Z 0) = true /\ le (of_Z 0) (maxValue ctx) = true).
Proof.
  intros item coerced ctx Hdata Hpost Hcode.
  split; [reflexivity|]. split; [|split; [reflexivity|split; [reflexivity|split]]].
  - subst ctx. unfold context. simpl. rewrite Hcode, Hdata.
    apply (countryValueMap_last pre post item Hpost).
  - intros Hnan. subst ctx. unfold context. cbn [minValue maxValue].
    unfold data_minValue, data_maxValue, Math_min, Math_max.
    fold coerced. now rewrite min_from_NaN, max_from_NaN.
  - intros Hnan. subst ctx. unfold context. cbn [minValue maxValue].
    unfold data_minValue, data_maxValue. fold coerced.
    assert (Hne : coerced <> []).
    { subst coerced. rewrite Hdata, map_app. now destruct (map toValue pre). }
    assert (Hzero : In (of_Z 0) coerced).
    { subst coerced. rewrite Hdata, map_app. apply in_or_app. right. now left. }
    destruct (min_from_spec coerced PosInf Hnan eq_refl) as (_ & _ & Hmin).
    destruct (max_from_spec coerced NegInf Hnan eq_refl) as (_ & _ & Hmax).
    split; [now apply Math_min_mem|]. split; [now apply Math_max_mem|].
    split; [intros n Hn; split; [apply Hmin|apply Hmax]; exact Hn|].
    split; [apply Hmin|apply Hmax]; exact Hzero.
Qed.

Lemma C6_strings_count_as_zero_for_the_range_only_witness :
  let props := {| data := [ {| country := "de"; value := VNumber (of_Z 83) |};
                            {| country := "us"; value := VString "n/a" |};
                            {| country := "fr"; value := VNumber (of_Z 67) |} ];
                  valuePrefix := None; valueSuffix := None; props_color := None |} in
  let ctx := context "#dd4b39" props {| I := "US"; N := "United States" |} in
  countryValue ctx = Some (VString "n/a") /\
  minValue ctx = of_Z 0 /\ maxValue ctx = of_Z 83.
Proof.
  intros props ctx.
  destruct (C6_strings_count_as_zero_for_the_range_only "#dd4b39" props
              {| I := "US"; N := "United States" |}
              [ {| country := "de"; value := VNumber (of_Z 83) |} ]
              [ {| country := "fr"; value := VNumber (of_Z 67) |} ]
              "us" "n/a")
    as (_ & Hv & Hmin & Hmax & _).
  - reflexivity.
  - repeat constructor. discriminate.
  - reflexivity.
  - split; [exact Hv|].
    split; [transitivity (Math_min (map toValue (data props)))
           | transitivity (Math_max (map toValue (data props)))];
      solve [exact Hmin | exact Hmax | reflexivity].
Defined.

(** C10. When several items of the dataset have the same country code up
    to case, the matching context carries the value of the last of them.
    An earlier duplicate has no effect on the countryValue of any context
    (dropping it leaves the lookup unchanged), yet it is still an argument
    of the range computation: without NaN values minValue and maxValue
    enclose its coerced value.  For the dataset ("us", 1), ("US", 9) the
    context of "US" has countryValue 9 and minValue 1; without the first
    item its minValue would be 9. *)
Theorem C10_last_duplicate_code_wins
    (defaultColor : string) (props : Props) (feature : Feature)
    (pre mid post : list DataItem) (earlier latest : DataItem) :
  let without_earlier :=
    {| data := pre ++ mid ++ latest :: post;
       valuePrefix := valuePrefix props; valueSuffix := valueSuffix props;
       props_color := props_color props |} in
  let ctx := context defaultColor props feature in
  data props = (pre ++ earlier :: mid ++ latest :: post)%list ->
  toUpperCase (country earlier) = toUpperCase (country latest) ->
  Forall (fun i => toUpperCase (country i) <> toUpperCase (country latest)) post ->
  I feature = toUpperCase (country latest) ->
  countryValue ctx = Some (value latest)
  /\ (forall f, countryValue (context defaultColor props f)
                = countryValue (context defaultColor without_earlier f))
  /\ minValue ctx
     = Math_min (map toValue pre ++ toValue earlier :: map toValue (mid ++ latest :: post))
  /\ maxValue ctx
     = Math_max (map toValue pre ++ toValue earlier :: map toValue (mid ++ latest :: post))
  /\ (Forall (fun i => value i <> VNumber NaN) (data props) ->
      le (minValue ctx) (toValue earlier) = true /\
      le (toValue earlier) (maxValue ctx) = true)
  /\ (let us1 := {| country := "us"; value := VNumber (of_Z 1) |} in
      let us9 := {| country := "US"; value := VNumber (of_Z 9) |} in
      let given d := {| data := d; valuePrefix := None; valueSuffix := None;
                        props_color := None |} in
      let us := {| I := "US"; N := "United States" |} in
      countryValue (context defaultColor (given [us1; us9]) us) = Some (VNumber (of_Z 9)) /\
      minValue (context defaultColor (given [us1; us9]) us) = of_Z 1 /\
      minValue (context defaultColor (given [us9]) us) = of_Z 9).
Proof.
  intros without_earlier ctx Hdata Hdup Hpost Hcode.
  split; [|split; [|split; [|split; [|split]]]].
  - subst ctx. unfold context. cbn [countryValue]. rewrite Hcode, Hdata.
    rewrite app_comm_cons, app_assoc.
    now apply countryValueMap_last.
  - intros f. unfold context. cbn [countryValue data]. rewrite Hdata.
    now rewrite (countryValueMap_shadowed pre mid post earlier latest Hdup).
  - subst ctx. unfold context. cbn [minValue]. unfold data_minValue.
    now rewrite Hdata, map_app.
  - subst ctx. unfold context. cbn [maxValue]. unfold data_maxValue.
    now rewrite Hdata, map_app.
  - intros Hnan. subst ctx. unfold context. cbn [minValue maxValue].
    unfold data_minValue, data_maxValue.
    assert (Hin : In (toValue earlier) (map toValue (data props))).
    { rewrite Hdata, map_app. apply in_or_app. right. now left. }
    apply coerced_NaN_free in Hnan.
    destruct (min_from_spec _ PosInf Hnan eq_refl) as (_ & _ & Hmin).
    destruct (max_from_spec _ NegInf Hnan eq_refl) as (_ & _ & Hmax).
    split; [apply Hmin | apply Hmax]; exact Hin.
  - repeat split.
Qed.

Lemma C10_last_duplicate_code_wins_witness :
  let fr := {| country := "fr"; value := VNumber (of_Z 67) |} in
  let us1 := {| country := "us"; value := VNumber (of_Z 1) |} in
  let de := {| country := "de"; value := VString "n/a" |} in
  let us9 := {| country := "Us"; value := VNumber (of_Z 9) |} in
  let props := {| data := [fr; us1; de; us9]; valuePrefix := None;
                  valueSuffix := None; props_color := None |} in
  let ctx := context "#dd4b39" props {| I := "US"; N := "United States" |} in
  countryValue ctx = Some (VNumber (of_Z 9)) /\
  le (minValue ctx) (of_Z 1) = true /\ le (of_Z 1) (maxValue ctx) = true.
Proof.
  intros fr us1 de us9 props ctx.
  destruct (C10_last_duplicate_code_wins "#dd4b39" props
              {| I := "US"; N := "United States" |} [fr] [de] [] us1 us9)
    as (Hv & _ & _ & _ & Hrange & _).
  - reflexivity.
  - reflexivity.
  - constructor.
  - reflexivity.
  - split; [exact Hv|]. apply Hrange. repeat constructor; discriminate.
Defined.

End Specification.

(** * Further properties of the controller *)

Section ReachableStates.
Import Dom.

Lemma snapshot_step_consistent (s : SnapshotPan.State) (ev : SnapshotPan.Event) :
  SnapshotPan.consistent s -> SnapshotPan.consistent (SnapshotPan.step s ev).
Proof.
  destruct s as [sc tr ds it cu dr]. unfold SnapshotPan.consistent. simpl.
  intros (Hsc & Ht & Hc & Hg).
  destruct ev as [ [r | ] e | [r | ] e | | | e ];
    destruct Hsc as [-> | [-> | ->] ]; destruct dr;
    cbn -[Z.mul Z.sub Z.add];
    intuition (try discriminate; try lia; try congruence).
Qed.

Lemma incremental_step_consistent (s : IncrementalPan.State) (ev : IncrementalPan.Event) :
  IncrementalPan.consistent s -> IncrementalPan.consistent (IncrementalPan.step s ev).
Proof.
  destruct s as [sc tx ty dr ds cu]. unfold IncrementalPan.consistent. simpl.
  intros (Hsc & Ht & Hc & Hg).
  destruct ev as [ e | e | | | e ];
    destruct Hsc as [-> | [-> | ->] ]; destruct dr;
    cbn -[Z.mul Z.sub Z.add];
    intuition (try discriminate; try lia; try congruence).
Qed.

Lemma snapshot_run_consistent (evs : list SnapshotPan.Event) (s : SnapshotPan.State) :
  SnapshotPan.consistent s -> SnapshotPan.consistent (SnapshotPan.run s evs).
Proof.
  revert s. induction evs as [|ev evs IH]; intros s Hs; [exact Hs|].
  apply (IH (SnapshotPan.step s ev)). now apply snapshot_step_consistent.
Qed.

Lemma incremental_run_consistent (evs : list IncrementalPan.Event) (s : IncrementalPan.State) :
  IncrementalPan.consistent s -> IncrementalPan.consistent (IncrementalPan.run s evs).
Proof.
  revert s. induction evs as [|ev evs IH]; intros s Hs; [exact Hs|].
  apply (IH (IncrementalPan.step s ev)). now apply incremental_step_consistent.
Qed.

Lemma snapshot_initial_consistent : SnapshotPan.consistent SnapshotPan.initial.
Proof. unfold SnapshotPan.consistent. simpl. intuition (try discriminate; auto). Qed.

Lemma incremental_initial_consistent : IncrementalPan.consistent IncrementalPan.initial.
Proof. unfold IncrementalPan.consistent. simpl. intuition (try discriminate; auto). Qed.

(** With rich interaction the mounted widget runs the handlers; without it
    the state never leaves [initial]. *)
Lemma snapshot_mounted_run (evs : list SnapshotPan.Event) :
  SnapshotPan.mounted true evs = SnapshotPan.run SnapshotPan.initial evs.
Proof. reflexivity. Qed.

Lemma snapshot_mounted_static (evs : list SnapshotPan.Event) (s : SnapshotPan.State) :
  fold_left (SnapshotPan.dispatch false) evs s = s.
Proof. induction evs as [|ev evs IH]; simpl; [reflexivity | exact IH]. Qed.

Lemma incremental_mounted_static (evs : list IncrementalPan.Event) (s : IncrementalPan.State) :
  fold_left (IncrementalPan.dispatch false) evs s = s.
Proof. induction evs as [|ev evs IH]; simpl; [reflexivity | exact IH]. Qed.

Lemma snapshot_mounted_consistent (b : bool) (evs : list SnapshotPan.Event) :
  SnapshotPan.consistent (SnapshotPan.mounted b evs).
Proof.
  destruct b.
  - apply snapshot_run_consistent, snapshot_initial_consistent.
  - unfold SnapshotPan.mounted. rewrite snapshot_mounted_static.
    apply snapshot_initial_consistent.
Qed.

Lemma incremental_mounted_consistent (b : bool) (evs : list IncrementalPan.Event) :
  IncrementalPan.consistent (IncrementalPan.mounted b evs).
Proof.
  destruct b.
  - apply incremental_run_consistent, incremental_initial_consistent.
  - unfold IncrementalPan.mounted. rewrite incremental_mounted_static.
    apply incremental_initial_consistent.
Qed.

End ReachableStates.

Section ControllerLaws.
Import Dom.

Lemma snapshot_double_click_scale (e : MouseEvent) (s : SnapshotPan.State) :
  SnapshotPan.scale (SnapshotPan.onDoubleClick e s)
  = if SnapshotPan.scale s =? 4 then 1 else SnapshotPan.scale s * 2.
Proof. unfold SnapshotPan.onDoubleClick. now destruct (_ =? 4). Qed.

Lemma incremental_double_click_scale (e : MouseEvent) (s : IncrementalPan.State) :
  IncrementalPan.scale (IncrementalPan.onDoubleClick e s)
  = if IncrementalPan.scale s =? 4 then 1 else IncrementalPan.scale s * 2.
Proof. unfold IncrementalPan.onDoubleClick. now destruct (_ =? 4). Qed.

Lemma snapshot_pan_step_scale (s : SnapshotPan.State) (ev : SnapshotPan.Event) :
  SnapshotPan.is_pan ev = true ->
  SnapshotPan.scale (SnapshotPan.step s ev) = SnapshotPan.scale s.
Proof.
  destruct ev as [ r e | r e | | | e ]; simpl; try discriminate; intros _;
    try reflexivity.
  - unfold SnapshotPan.onMouseDown.
    destruct (SnapshotPan.scale s <=? 1); [reflexivity|].
    now destruct (getBoundingClientRect r).
  - unfold SnapshotPan.onMouseMove.
    destruct (negb _ || _); [reflexivity|].
    now destruct (getBoundingClientRect r).
Qed.

Lemma incremental_pan_step_scale (s : IncrementalPan.State) (ev : IncrementalPan.Event) :
  IncrementalPan.is_pan ev = true ->
  IncrementalPan.scale (IncrementalPan.step s ev) = IncrementalPan.scale s.
Proof.
  destruct ev as [ e | e | | | e ]; simpl; try discriminate; intros _;
    try reflexivity.
  - unfold IncrementalPan.onMouseDown.
    now destruct (IncrementalPan.scale s <=? 1).
  - unfold IncrementalPan.onMouseMove.
    now destruct (negb _ || _).
Qed.

Lemma snapshot_pan_run_scale (evs : list SnapshotPan.Event) (s : SnapshotPan.State) :
  forallb SnapshotPan.is_pan evs = true ->
  SnapshotPan.scale (SnapshotPan.run s evs) = SnapshotPan.scale s.
Proof.
  revert s. induction evs as [|ev evs IH]; intros s Hp; [reflexivity|].
  simpl in Hp. apply andb_true_iff in Hp as [Hev Hp].
  change (SnapshotPan.run s (ev :: evs))
    with (SnapshotPan.run (SnapshotPan.step s ev) evs).
  rewrite IH by exact Hp. now apply snapshot_pan_step_scale.
Qed.

Lemma incremental_pan_run_scale (evs : list IncrementalPan.Event) (s : IncrementalPan.State) :
  forallb IncrementalPan.is_pan evs = true ->
  IncrementalPan.scale (IncrementalPan.run s evs) = IncrementalPan.scale s.
Proof.
  revert s. induction evs as [|ev evs IH]; intros s Hp; [reflexivity|].
  simpl in Hp. apply andb_true_iff in Hp as [Hev Hp].
  change (IncrementalPan.run s (ev :: evs))
    with (IncrementalPan.run (IncrementalPan.step s ev) evs).
  rewrite IH by exact Hp. now apply incremental_pan_step_scale.
Qed.

(** The translation at the end of a whole drag session. *)
Lemma snapshot_session_closed_form
    (s : SnapshotPan.State) (r0 : DOMRect) (e0 : MouseEvent)
    (ms : list (Ref * MouseEvent)) (rn : DOMRect) (en : MouseEvent) :
  1 < SnapshotPan.scale s ->
  List.last ms (Some r0, e0) = (Some rn, en) ->
  SnapshotPan.translate (SnapshotPan.run s (SnapshotPan.drag_session (Some r0) e0 ms))
  = displaced (SnapshotPan.translate s) (relative e0 r0) (relative en rn).
Proof.
  intros Hs Hlast. unfold SnapshotPan.drag_session.
  rewrite app_comm_cons, snapshot_run_up.
  now apply snapshot_drag_closed_form.
Qed.

Lemma incremental_session_closed_form
    (s : IncrementalPan.State) (e0 : MouseEvent) (ms : list MouseEvent) :
  1 < IncrementalPan.scale s ->
  IncrementalPan.translate (IncrementalPan.run s (IncrementalPan.drag_session e0 ms))
  = displaced (IncrementalPan.translate s) (client e0) (client (List.last ms e0)).
Proof.
  intros Hs. unfold IncrementalPan.drag_session.
  rewrite app_comm_cons, incremental_run_up.
  now apply incremental_drag_closed_form.
Qed.

(** Moves that find the widget idle change nothing. *)
Lemma snapshot_moves_idle (ms : list (Ref * MouseEvent)) (s : SnapshotPan.State) :
  SnapshotPan.isDragging s = false ->
  SnapshotPan.run s (SnapshotPan.moves ms) = s.
Proof.
  intros Hd. induction ms as [|[r e] ms IH]; [reflexivity|].
  change (SnapshotPan.run s (SnapshotPan.moves ((r, e) :: ms)))
    with (SnapshotPan.run (SnapshotPan.onMouseMove r e s) (SnapshotPan.moves ms)).
  replace (SnapshotPan.onMouseMove r e s) with s; [exact IH|].
  unfold SnapshotPan.onMouseMove. now rewrite Hd.
Qed.

Lemma incremental_moves_idle (ms : list MouseEvent) (s : IncrementalPan.State) :
  IncrementalPan.isDragging s = false ->
  IncrementalPan.run s (IncrementalPan.moves ms) = s.
Proof.
  intros Hd. induction ms as [|e ms IH]; [reflexivity|].
  change (IncrementalPan.run s (IncrementalPan.moves (e :: ms)))
    with (IncrementalPan.run (IncrementalPan.onMouseMove e s) (IncrementalPan.moves ms)).
  replace (IncrementalPan.onMouseMove e s) with s; [exact IH|].
  unfold IncrementalPan.onMouseMove. now rewrite Hd.
Qed.

End ControllerLaws.

Section ControllerProperties.
Import Dom.

(** X1. Whatever events a mounted widget receives, with or without rich
    interaction, its zoom scale is 1, 2 or 4. *)
Theorem X1_zoom_scale_is_1_2_or_4
    (richInteraction : bool)
    (evs : list SnapshotPan.Event) (evi : list IncrementalPan.Event) :
  (SnapshotPan.scale (SnapshotPan.mounted richInteraction evs) = 1 \/
   SnapshotPan.scale (SnapshotPan.mounted richInteraction evs) = 2 \/
   SnapshotPan.scale (SnapshotPan.mounted richInteraction evs) = 4)
  /\ (IncrementalPan.scale (IncrementalPan.mounted richInteraction evi) = 1 \/
      IncrementalPan.scale (IncrementalPan.mounted richInteraction evi) = 2 \/
      IncrementalPan.scale (IncrementalPan.mounted richInteraction evi) = 4).
Proof.
  split.
  - apply (snapshot_mounted_consistent richInteraction evs).
  - apply (incremental_mounted_consistent richInteraction evi).
Qed.

(** X2. Whenever a mounted widget is back at scale 1, its translation is
    (0,0): no sequence of events leaves an unzoomed map displaced. *)
Theorem X2_unzoomed_map_is_untranslated
    (richInteraction : bool)
    (evs : list SnapshotPan.Event) (evi : list IncrementalPan.Event) :
  (SnapshotPan.scale (SnapshotPan.mounted richInteraction evs) = 1 ->
   SnapshotPan.translate (SnapshotPan.mounted richInteraction evs) = {| x := 0; y := 0 |})
  /\ (IncrementalPan.scale (IncrementalPan.mounted richInteraction evi) = 1 ->
      IncrementalPan.translate (IncrementalPan.mounted richInteraction evi)
        = {| x := 0; y := 0 |}).
Proof.
  split.
  - apply (snapshot_mounted_consistent richInteraction evs).
  - apply (incremental_mounted_consistent richInteraction evi).
Qed.

Lemma X2_unzoomed_map_is_untranslated_witness :
  let r := Some container_at_origin in
  let evs := [ SnapshotPan.DoubleClick (pointer_at 10 20);
               SnapshotPan.PointerDown r (pointer_at 100 100);
               SnapshotPan.PointerMove r (pointer_at 150 130);
               SnapshotPan.PointerUp;
               SnapshotPan.DoubleClick (pointer_at 30 40);
               SnapshotPan.DoubleClick (pointer_at 5 6) ] in
  let evi := [ IncrementalPan.DoubleClick (pointer_at 10 20);
               IncrementalPan.PointerDown (pointer_at 100 100);
               IncrementalPan.PointerMove (pointer_at 150 130);
               IncrementalPan.PointerUp;
               IncrementalPan.DoubleClick (pointer_at 30 40);
               IncrementalPan.DoubleClick (pointer_at 5 6) ] in
  SnapshotPan.translate (SnapshotPan.mounted true evs) = {| x := 0; y := 0 |} /\
  IncrementalPan.translate (IncrementalPan.mounted true evi) = {| x := 0; y := 0 |}.
Proof.
  intros r evs evi.
  destruct (X2_unzoomed_map_is_untranslated true evs evi) as [Hs Hi].
  split; [apply Hs | apply Hi]; reflexivity.
Defined.

(** X3. In every state a mounted widget reaches, the cursor is "default"
    exactly when the scale is 1, and it is "grabbing" only while the
    dragging flag is set. *)
Theorem X3_cursor_follows_zoom_and_drag
    (richInteraction : bool)
    (evs : list SnapshotPan.Event) (evi : list IncrementalPan.Event) :
  let s := SnapshotPan.mounted richInteraction evs in
  let si := IncrementalPan.mounted richInteraction evi in
  (SnapshotPan.cursor s = "default" <-> SnapshotPan.scale s = 1)
  /\ (SnapshotPan.cursor s = "grabbing" -> SnapshotPan.isDragging s = true)
  /\ (IncrementalPan.cursor si = "default" <-> IncrementalPan.scale si = 1)
  /\ (IncrementalPan.cursor si = "grabbing" -> IncrementalPan.isDragging si = true).
Proof.
  intros s si.
  destruct (snapshot_mounted_consistent richInteraction evs) as (_ & _ & Hc & Hg).
  destruct (incremental_mounted_consistent richInteraction evi) as (_ & _ & Hci & Hgi).
  repeat split; solve [apply Hc | apply Hg | apply Hci | apply Hgi].
Qed.

Lemma X3_cursor_follows_zoom_and_drag_witness :
  let evs := [ SnapshotPan.DoubleClick (pointer_at 10 20);
               SnapshotPan.PointerDown None (pointer_at 100 100) ] in
  let evi := [ IncrementalPan.DoubleClick (pointer_at 10 20);
               IncrementalPan.PointerDown (pointer_at 100 100) ] in
  SnapshotPan.isDragging (SnapshotPan.mounted true evs) = true /\
  IncrementalPan.isDragging (IncrementalPan.mounted true evi) = true.
Proof.
  intros evs evi.
  destruct (X3_cursor_follows_zoom_and_drag true evs evi) as (_ & Hg & _ & Hgi).
  split; [apply Hg | apply Hgi]; reflexivity.
Defined.

(** X5. From any state a mounted widget reaches, three double-clicks in a
    row bring the scale back to what it was. *)
Theorem X5_three_double_clicks_restore_the_scale
    (evs : list SnapshotPan.Event) (evi : list IncrementalPan.Event)
    (e1 e2 e3 : MouseEvent) :
  SnapshotPan.scale
    (SnapshotPan.mounted true
       (evs ++ map SnapshotPan.DoubleClick [e1; e2; e3]))
  = SnapshotPan.scale (SnapshotPan.mounted true evs)
  /\ IncrementalPan.scale
       (IncrementalPan.mounted true
          (evi ++ map IncrementalPan.DoubleClick [e1; e2; e3]))
     = IncrementalPan.scale (IncrementalPan.mounted true evi).
Proof.
  split.
  - destruct (snapshot_mounted_consistent true evs) as (Hsc & _).
    unfold SnapshotPan.mounted in *. rewrite fold_left_app.
    set (s := fold_left (SnapshotPan.dispatch true) evs SnapshotPan.initial) in *.
    cbn [map fold_left SnapshotPan.dispatch SnapshotPan.step].
    rewrite !snapshot_double_click_scale.
    destruct Hsc as [-> | [-> | ->] ]; reflexivity.
  - destruct (incremental_mounted_consistent true evi) as (Hsc & _).
    unfold IncrementalPan.mounted in *. rewrite fold_left_app.
    set (s := fold_left (IncrementalPan.dispatch true) evi IncrementalPan.initial) in *.
    cbn [map fold_left IncrementalPan.dispatch IncrementalPan.step].
    rewrite !incremental_double_click_scale.
    destruct Hsc as [-> | [-> | ->] ]; reflexivity.
Qed.

End ControllerProperties.

Section PanProperties.
Import Dom.

(** X7. What can change the transform.  In any state, an event that changes
    the scale is a double-click; an event that changes the translation is a
    double-click or a pointerMove arriving during a drag above scale 1 (for
    the snapshot-relative controller, one that finds the container
    measured).  pointerDown, pointerUp and pointerLeave never change
    either. *)
Theorem X7_only_moves_in_a_drag_and_double_clicks_change_the_transform
    (s : SnapshotPan.State) (ev : SnapshotPan.Event)
    (si : IncrementalPan.State) (evi : IncrementalPan.Event) :
  (SnapshotPan.scale (SnapshotPan.step s ev) <> SnapshotPan.scale s ->
     exists e, ev = SnapshotPan.DoubleClick e)
  /\ (SnapshotPan.translate (SnapshotPan.step s ev) <> SnapshotPan.translate s ->
      (exists e, ev = SnapshotPan.DoubleClick e) \/
      (exists rect e, ev = SnapshotPan.PointerMove (Some rect) e /\
                      SnapshotPan.isDragging s = true /\ 1 < SnapshotPan.scale s))
  /\ (IncrementalPan.scale (IncrementalPan.step si evi) <> IncrementalPan.scale si ->
      exists e, evi = IncrementalPan.DoubleClick e)
  /\ (IncrementalPan.translate (IncrementalPan.step si evi) <> IncrementalPan.translate si ->
      (exists e, evi = IncrementalPan.DoubleClick e) \/
      (exists e, evi = IncrementalPan.PointerMove e /\
                 IncrementalPan.isDragging si = true /\ 1 < IncrementalPan.scale si)).
Proof.
  split; [|split; [|split]].
  - intros H. destruct ev as [ r e | r e | | | e ]; eauto;
      exfalso; apply H; now apply snapshot_pan_step_scale.
  - intros H. destruct ev as [ [rect | ] e | [rect | ] e | | | e ]; eauto;
      try (exfalso; apply H; simpl; unfold SnapshotPan.onMouseDown;
           now destruct (SnapshotPan.scale s <=? 1)).
    + right. exists rect, e. split; [reflexivity|].
      simpl in H. unfold SnapshotPan.onMouseMove in H.
      destruct (SnapshotPan.isDragging s); [|now contradiction H].
      destruct (SnapshotPan.scale s <=? 1) eqn:E; [now contradiction H|].
      apply Z.leb_gt in E. auto.
    + exfalso. apply H. simpl. unfold SnapshotPan.onMouseMove.
      now destruct (negb _ || _).
  - intros H. destruct evi as [ e | e | | | e ]; eauto;
      exfalso; apply H; now apply incremental_pan_step_scale.
  - intros H. destruct evi as [ e | e | | | e ]; eauto;
      try (exfalso; apply H; simpl; unfold IncrementalPan.onMouseDown;
           now destruct (IncrementalPan.scale si <=? 1)).
    right. exists e. split; [reflexivity|].
    simpl in H. unfold IncrementalPan.onMouseMove in H.
    destruct (IncrementalPan.isDragging si); [|now contradiction H].
    destruct (IncrementalPan.scale si <=? 1) eqn:E; [now contradiction H|].
    apply Z.leb_gt in E. auto.
Qed.

Lemma X7_only_moves_in_a_drag_and_double_clicks_change_the_transform_witness :
  let s := SnapshotPan.mounted true
             [ SnapshotPan.DoubleClick (pointer_at 10 20);
               SnapshotPan.PointerDown (Some container_at_origin) (pointer_at 100 100) ] in
  let ev := SnapshotPan.PointerMove (Some container_at_origin) (pointer_at 150 130) in
  (exists e, ev = SnapshotPan.DoubleClick e) \/
  (exists rect e, ev = SnapshotPan.PointerMove (Some rect) e /\
                  SnapshotPan.isDragging s = true /\ 1 < SnapshotPan.scale s).
Proof.
  intros s ev.
  destruct (X7_only_moves_in_a_drag_and_double_clicks_change_the_transform
              s ev IncrementalPan.initial IncrementalPan.PointerUp) as (_ & H & _).
  apply H. discriminate.
Defined.

(** X8. A drag that ends where it started puts the translation back: in
    the snapshot-relative controller, if the last pointerMove of a session
    (at scale > 1, container box fixed) is at the position of the
    pointerDown, the translation after the session is the one before it,
    whatever the moves in between. *)
Theorem X8_dragging_back_restores_the_translation
    (s : SnapshotPan.State)
    (rect : DOMRect) (e0 en : MouseEvent) (ms : list MouseEvent) :
  1 < SnapshotPan.scale s ->
  List.last ms e0 = en ->
  client en = client e0 ->
  SnapshotPan.translate
    (SnapshotPan.run s
       (SnapshotPan.drag_session (Some rect) e0 (map (fun e => (Some rect, e)) ms)))
  = SnapshotPan.translate s.
Proof.
  intros Hs Hlast Hback.
  rewrite (snapshot_session_closed_form s rect e0 _ rect en Hs).
  - replace (relative en rect) with (relative e0 rect); [apply displaced_same|].
    injection Hback as Hx Hy. unfold relative. now rewrite Hx, Hy.
  - rewrite (last_map (fun e => (Some rect, e))). now rewrite Hlast.
Qed.

Lemma X8_dragging_back_restores_the_translation_witness :
  let s := SnapshotPan.mounted true [SnapshotPan.DoubleClick (pointer_at 10 20)] in
  let rect := {| left := 8; top := 64 |} in
  let ms := [pointer_at 150 130; pointer_at 300 10; pointer_at 100 100] in
  SnapshotPan.translate
    (SnapshotPan.run s
       (SnapshotPan.drag_session (Some rect) (pointer_at 100 100)
          (map (fun e => (Some rect, e)) ms)))
  = {| x := -10; y := -20 |}.
Proof.
  intros s rect ms.
  apply (X8_dragging_back_restores_the_translation s rect
           (pointer_at 100 100) (pointer_at 100 100) ms); reflexivity.
Defined.

(** X9. Drags accumulate: in the snapshot-relative controller, after two
    drag sessions in a row (started at scale > 1, the container measured at
    a fixed box) the translation is the initial one carried along the
    displacement of the first session and then along that of the second,
    each taken between the positions relative to the container at the
    pointerDown and at the last move. *)
Theorem X9_successive_drags_add_up
    (s : SnapshotPan.State) (rect : DOMRect)
    (e0 f0 : MouseEvent) (ms ns : list MouseEvent) :
  1 < SnapshotPan.scale s ->
  let measured := map (fun e => (Some rect, e)) in
  SnapshotPan.translate
    (SnapshotPan.run s
       (SnapshotPan.drag_session (Some rect) e0 (measured ms)
        ++ SnapshotPan.drag_session (Some rect) f0 (measured ns)))
  = displaced
      (displaced (SnapshotPan.translate s)
         (relative e0 rect) (relative (List.last ms e0) rect))
      (relative f0 rect) (relative (List.last ns f0) rect).
Proof.
  intros Hs measured.
  unfold SnapshotPan.run. rewrite fold_left_app.
  fold (SnapshotPan.run s (SnapshotPan.drag_session (Some rect) e0 (measured ms))).
  set (s1 := SnapshotPan.run s _).
  fold (SnapshotPan.run s1 (SnapshotPan.drag_session (Some rect) f0 (measured ns))).
  assert (Hs1 : SnapshotPan.scale s1 = SnapshotPan.scale s)
    by apply snapshot_pan_run_scale, snapshot_session_is_pan.
  rewrite (snapshot_session_closed_form s1 rect f0 _ rect (List.last ns f0))
    by (try lia; apply (last_map (fun e => (Some rect, e)))).
  subst s1.
  now rewrite (snapshot_session_closed_form s rect e0 _ rect (List.last ms e0) Hs)
    by apply (last_map (fun e => (Some rect, e))).
Qed.

Lemma X9_successive_drags_add_up_witness :
  let s := SnapshotPan.mounted true [SnapshotPan.DoubleClick (pointer_at 0 0)] in
  let rect := {| left := 8; top := 64 |} in
  let measured := map (fun e : MouseEvent => (Some rect, e)) in
  SnapshotPan.translate
    (SnapshotPan.run s
       (SnapshotPan.drag_session (Some rect) (pointer_at 100 100)
          (measured [pointer_at 150 130])
        ++ SnapshotPan.drag_session (Some rect) (pointer_at 10 10)
             (measured [pointer_at 40 40; pointer_at 11 12])))
  = {| x := 51; y := 32 |}.
Proof.
  intros s rect measured.
  apply (X9_successive_drags_add_up s rect (pointer_at 100 100) (pointer_at 10 10)
           [pointer_at 150 130] [pointer_at 40 40; pointer_at 11 12]); reflexivity.
Defined.

End PanProperties.

(** * Further properties of the data binding *)

Section DataBindingLaws.
Import JsNumber DataBinding.

Lemma scan_None_inv {V : Type} (entries : list (string * V)) (k : string)
    (hit : option V) :
  fold_left (fun hit kv => if decide (kv.1 = k) then Some kv.2 else hit)
            entries hit = None ->
  hit = None /\ Forall (fun kv => kv.1 <> k) entries.
Proof.
  revert hit. induction entries as [|[k' v] entries IH]; intros hit H; simpl in *.
  - split; [exact H | constructor].
  - apply IH in H as [Hhit Hrest].
    destruct (decide (k' = k)) as [_|Hne]; [discriminate|].
    split; [exact Hhit | constructor; [exact Hne | exact Hrest]].
Qed.

Lemma countryValueMap_None_inv (d : list DataItem) (k : string) :
  countryValueMap d !! k = None ->
  Forall (fun item => toUpperCase (country item) <> k) d.
Proof.
  unfold countryValueMap, Object_fromEntries.
  rewrite lookup_fold_insert, lookup_empty. intros H.
  apply scan_None_inv in H as [_ H]. now rewrite Forall_map in H.
Qed.

(** A code has a value in the lookup exactly when some item carries it, up
    to case. *)
Lemma countryValueMap_is_Some (d : list DataItem) (k : string) :
  is_Some (countryValueMap d !! k) <->
  exists item, In item d /\ toUpperCase (country item) = k.
Proof.
  split.
  - intros [v Hv]. apply countryValueMap_Some_inv in Hv as (item & Hin & Hk & _).
    eauto.
  - intros (item & Hin & Hk).
    destruct (countryValueMap d !! k) eqn:E; [eauto|].
    apply countryValueMap_None_inv in E.
    rewrite List.Forall_forall in E. now destruct (E item Hin).
Qed.

Lemma le_antisym (a b : number) : le a b = true -> le b a = true -> a = b.
Proof.
  destruct a as [| |qa|], b as [| |qb|]; simpl; try congruence.
  rewrite !negb_true_iff, !Qc_ltb_ge. intros H1 H2.
  f_equal. now apply Qcle_antisym.
Qed.

Lemma existsb_Permutation {A : Type} (f : A -> bool) (l l' : list A) :
  Permutation l l' -> existsb f l = existsb f l'.
Proof.
  intros HP. induction HP as [|a l l' _ IH|a b l|l l' l'' _ IH1 _ IH2]; simpl.
  - reflexivity.
  - now rewrite IH.
  - now rewrite !orb_assoc, (orb_comm (f b)).
  - now rewrite IH1.
Qed.

Lemma Math_min_Permutation (l l' : list number) :
  Permutation l l' -> Math_min l = Math_min l'.
Proof.
  intros HP. pose proof (existsb_Permutation is_NaN l l' HP) as Hnan.
  destruct (existsb is_NaN l) eqn:E.
  - unfold Math_min. rewrite min_from_NaN by exact E.
    now rewrite min_from_NaN by (symmetry; exact Hnan).
  - symmetry in Hnan. destruct l as [|n l].
    + apply Permutation_nil in HP. now subst l'.
    + assert (Hl' : l' <> []).
      { intros ->. apply Permutation_sym, Permutation_nil in HP. discriminate. }
      pose proof (Math_min_mem (n :: l) ltac:(discriminate) E) as Hm.
      pose proof (Math_min_mem l' Hl' Hnan) as Hm'.
      destruct (min_from_spec (n :: l) PosInf E eq_refl) as (_ & _ & Hlow).
      destruct (min_from_spec l' PosInf Hnan eq_refl) as (_ & _ & Hlow').
      apply le_antisym.
      * apply Hlow. eapply Permutation_in; [apply Permutation_sym, HP | exact Hm'].
      * apply Hlow'. eapply Permutation_in; [exact HP | exact Hm].
Qed.

Lemma Math_max_Permutation (l l' : list number) :
  Permutation l l' -> Math_max l = Math_max l'.
Proof.
  intros HP. pose proof (existsb_Permutation is_NaN l l' HP) as Hnan.
  destruct (existsb is_NaN l) eqn:E.
  - unfold Math_max. rewrite max_from_NaN by exact E.
    now rewrite max_from_NaN by (symmetry; exact Hnan).
  - symmetry in Hnan. destruct l as [|n l].
    + apply Permutation_nil in HP. now subst l'.
    + assert (Hl' : l' <> []).
      { intros ->. apply Permutation_sym, Permutation_nil in HP. discriminate. }
      pose proof (Math_max_mem (n :: l) ltac:(discriminate) E) as Hm.
      pose proof (Math_max_mem l' Hl' Hnan) as Hm'.
      destruct (max_from_spec (n :: l) NegInf E eq_refl) as (_ & _ & Hup).
      destruct (max_from_spec l' NegInf Hnan eq_refl) as (_ & _ & Hup').
      apply le_antisym.
      * apply Hup'. eapply Permutation_in; [exact HP | exact Hm].
      * apply Hup. eapply Permutation_in; [apply Permutation_sym, HP | exact Hm'].
Qed.

End DataBindingLaws.

Section DataBindingProperties.
Import JsNumber DataBinding Regions.

(** X10. A country gets a tooltip text exactly when the dataset has an item
    whose country code is, up to case, the ISO code of the feature; the text
    is then what the tooltip function returns for the context of that
    country.  A country without data gets no text, whatever the function. *)
Theorem X10_tooltip_text_exactly_for_countries_with_data
    (defaultColor : string) (props : Props) (feature : Feature)
    (tooltipTextFunction : CountryContext -> string) :
  let ctx := context defaultColor props feature in
  (is_Some (tooltip_text tooltipTextFunction ctx) <->
     exists item, In item (data props) /\ toUpperCase (country item) = I feature)
  /\ (forall text, tooltip_text tooltipTextFunction ctx = Some text ->
        text = tooltipTextFunction ctx)
  /\ (Forall (fun item => toUpperCase (country item) <> I feature) (data props) ->
        tooltip_text tooltipTextFunction ctx = None /\ countryValue ctx = None).
Proof.
  intros ctx. subst ctx. unfold tooltip_text, context. cbn [countryValue].
  split; [|split].
  - rewrite <- countryValueMap_is_Some.
    destruct (countryValueMap (data props) !! I feature); split; intros H; eauto;
      now destruct H.
  - intros text. destruct (countryValueMap (data props) !! I feature);
      [now intros [= <-] | discriminate].
  - intros H. now rewrite countryValueMap_absent.
Qed.

Lemma X10_tooltip_text_exactly_for_countries_with_data_witness :
  let props := {| data := [ {| country := "fr"; value := VNumber (of_Z 67) |} ];
                  valuePrefix := None; valueSuffix := None; props_color := None |} in
  let show ctx := countryName ctx in
  tooltip_text show (context "#dd4b39" props {| I := "US"; N := "United States" |}) = None
  /\ is_Some (tooltip_text show (context "#dd4b39" props {| I := "FR"; N := "France" |})).
Proof.
  intros props show.
  destruct (X10_tooltip_text_exactly_for_countries_with_data "#dd4b39" props
              {| I := "US"; N := "United States" |} show) as (_ & _ & Hnone).
  destruct (X10_tooltip_text_exactly_for_countries_with_data "#dd4b39" props
              {| I := "FR"; N := "France" |} show) as (Hsome & _ & _).
  split.
  - apply Hnone. repeat constructor. discriminate.
  - apply Hsome. exists {| country := "fr"; value := VNumber (of_Z 67) |}.
    split; [simpl; auto | reflexivity].
Defined.

(** X11. The contexts built in a render line up with the exported
    [regions]: one context per region, in order, with the same code and
    name, whatever the dataset.  So the value of an item (the last one with
    its code, up to case) reaches a context exactly when its upper-cased
    code is the code of an exported region; otherwise it is shown nowhere. *)
Theorem X11_data_is_shown_exactly_for_exported_region_codes
    (defaultColor : string) (geoData_features : list Feature) (props : Props)
    (pre post : list DataItem) (item : DataItem) :
  data props = (pre ++ item :: post)%list ->
  Forall (fun i => toUpperCase (country i) <> toUpperCase (country item)) post ->
  map (fun ctx => (countryCode ctx, countryName ctx))
      (contexts defaultColor geoData_features props)
  = map (fun r => (code r, name r)) (regions geoData_features)
  /\ ((exists ctx, In ctx (contexts defaultColor geoData_features props) /\
                   countryCode ctx = toUpperCase (country item) /\
                   countryValue ctx = Some (value item))
      <-> In (toUpperCase (country item)) (map code (regions geoData_features))).
Proof.
  intros Hdata Hpost. split.
  - unfold contexts, regions. rewrite !map_map. reflexivity.
  - unfold contexts, regions. rewrite map_map. cbn [code]. split.
    + intros (ctx & Hin & Hcode & _).
      apply in_map_iff in Hin as (f & <- & Hf).
      apply in_map_iff. exists f. split; [exact Hcode | exact Hf].
    + intros Hin. apply in_map_iff in Hin as (f & Hcode & Hf).
      exists (context defaultColor props f).
      split; [apply in_map; exact Hf|]. split; [exact Hcode|].
      unfold context. cbn [countryValue]. rewrite Hcode, Hdata.
      now apply countryValueMap_last.
Qed.

Lemma X11_data_is_shown_exactly_for_exported_region_codes_witness :
  let table := [ {| I := "FR"; N := "France" |};
                 {| I := "US"; N := "United States" |} ] in
  let us := {| country := "us"; value := VNumber (of_Z 331) |} in
  let props := {| data := [ {| country := "xx"; value := VNumber (of_Z 1) |}; us ];
                  valuePrefix := None; valueSuffix := None; props_color := None |} in
  exists ctx, In ctx (contexts "#dd4b39" table props) /\
              countryCode ctx = "US" /\ countryValue ctx = Some (VNumber (of_Z 331)).
Proof.
  intros table us props.
  destruct (X11_data_is_shown_exactly_for_exported_region_codes "#dd4b39" table props
              [ {| country := "xx"; value := VNumber (of_Z 1) |} ] [] us)
    as (_ & Hshown).
  - reflexivity.
  - constructor.
  - apply Hshown. simpl. auto.
Defined.

(** X12. For a dataset without NaN values, minValue <= maxValue holds
    exactly when the dataset is not empty: the range (Infinity, -Infinity)
    of the empty dataset is the only inverted one. *)
Theorem X12_range_is_ordered_unless_the_dataset_is_empty (d : list DataItem) :
  Forall (fun i => value i <> VNumber NaN) d ->
  (le (data_minValue d) (data_maxValue d) = true <-> d <> []).
Proof.
  intros Hnan. apply coerced_NaN_free in Hnan. split.
  - intros H ->. discriminate.
  - destruct d as [|i d]; [congruence|]. intros _.
    destruct (min_from_spec _ PosInf Hnan eq_refl) as (_ & _ & Hmin).
    destruct (max_from_spec _ NegInf Hnan eq_refl) as (_ & _ & Hmax).
    apply (le_trans _ (toValue i)); [apply Hmin | apply Hmax]; now left.
Qed.

Lemma X12_range_is_ordered_unless_the_dataset_is_empty_witness :
  let d := [ {| country := "us"; value := VNumber (of_Z 7) |};
             {| country := "fr"; value := VString "n/a" |} ] in
  le (data_minValue d) (data_maxValue d) = true.
Proof.
  intros d.
  apply (X12_range_is_ordered_unless_the_dataset_is_empty d).
  - repeat constructor; discriminate.
  - discriminate.
Defined.

(** X13. The range does not depend on the order of the dataset: two
    datasets with the same items in a different order have the same
    minValue and the same maxValue (NaN included), although the lookup may
    differ when codes repeat. *)
Theorem X13_range_ignores_the_order_of_the_dataset (d d' : list DataItem) :
  Permutation d d' ->
  data_minValue d = data_minValue d' /\ data_maxValue d = data_maxValue d'.
Proof.
  intros HP. apply (Permutation_map toValue) in HP.
  split; [now apply Math_min_Permutation | now apply Math_max_Permutation].
Qed.

Lemma X13_range_ignores_the_order_of_the_dataset_witness :
  let a := {| country := "us"; value := VNumber (of_Z 7) |} in
  let b := {| country := "US"; value := VNumber (of_Z (-3)) |} in
  let c := {| country := "fr"; value := VString "n/a" |} in
  data_minValue [a; b; c] = data_minValue [b; a; c] /\
  data_maxValue [a; b; c] = data_maxValue [b; a; c] /\
  countryValueMap [a; b; c] !! "US" <> countryValueMap [b; a; c] !! "US".
Proof.
  intros a b c.
  destruct (X13_range_ignores_the_order_of_the_dataset [a; b; c] [b; a; c])
    as [Hmin Hmax]; [apply perm_swap|].
  split; [exact Hmin|]. split; [exact Hmax|].
  vm_compute. discriminate.
Defined.

End DataBindingProperties.

(** * The two controllers compared *)

Section VariantsAgree.
Import Dom Variants.

(** The states of the two controllers that show the same and will keep
    doing so: while dragging, the snapshot of the one and the running
    reference point of the other differ by the same offset. *)
Lemma variants_step_related
    (rect : DOMRect) (s : SnapshotPan.State) (si : IncrementalPan.State)
    (ev : IncrementalPan.Event) :
  observe_snapshot s = observe_incremental si ->
  (IncrementalPan.isDragging si = true ->
     x (SnapshotPan.initialTranslate s) - x (SnapshotPan.dragStart s)
       = IncrementalPan.translateX si - (x (IncrementalPan.dragStart si) - left rect) /\
     y (SnapshotPan.initialTranslate s) - y (SnapshotPan.dragStart s)
       = IncrementalPan.translateY si - (y (IncrementalPan.dragStart si) - top rect)) ->
  double_clicks_idle si [ev] = true ->
  let s' := SnapshotPan.step s (measured rect ev) in
  let si' := IncrementalPan.step si ev in
  observe_snapshot s' = observe_incremental si' /\
  (IncrementalPan.isDragging si' = true ->
     x (SnapshotPan.initialTranslate s') - x (SnapshotPan.dragStart s')
       = IncrementalPan.translateX si' - (x (IncrementalPan.dragStart si') - left rect) /\
     y (SnapshotPan.initialTranslate s') - y (SnapshotPan.dragStart s')
       = IncrementalPan.translateY si' - (y (IncrementalPan.dragStart si') - top rect)).
Proof.
  destruct s as [sc tr ds it cu dr], si as [sci tx ty dri dsi cui].
  unfold observe_snapshot, observe_incremental, IncrementalPan.translate. simpl.
  intros [= -> -> -> ->] Hrel Hidle.
  destruct ev as [ e | e | | | e ]; simpl.
  - unfold SnapshotPan.onMouseDown, IncrementalPan.onMouseDown. simpl.
    destruct (sci <=? 1); simpl; [auto|]. split; [reflexivity|]. intros _. lia.
  - unfold SnapshotPan.onMouseMove, IncrementalPan.onMouseMove. simpl.
    destruct dri; simpl; [|split; [reflexivity | discriminate]].
    destruct (sci <=? 1); simpl; [auto|].
    destruct (Hrel eq_refl) as [Hx Hy].
    split; [|intros _; lia].
    do 3 f_equal. apply point_eq; simpl; lia.
  - split; [reflexivity | discriminate].
  - split; [destruct dri; reflexivity | destruct dri; discriminate].
  - simpl in Hidle. rewrite andb_true_r in Hidle. apply negb_true_iff in Hidle.
    subst dri. unfold SnapshotPan.onDoubleClick, IncrementalPan.onDoubleClick. simpl.
    destruct (sci =? 4); simpl; split; solve [reflexivity | discriminate].
Qed.

Lemma variants_run_related
    (rect : DOMRect) (evi : list IncrementalPan.Event)
    (s : SnapshotPan.State) (si : IncrementalPan.State) :
  observe_snapshot s = observe_incremental si ->
  (IncrementalPan.isDragging si = true ->
     x (SnapshotPan.initialTranslate s) - x (SnapshotPan.dragStart s)
       = IncrementalPan.translateX si - (x (IncrementalPan.dragStart si) - left rect) /\
     y (SnapshotPan.initialTranslate s) - y (SnapshotPan.dragStart s)
       = IncrementalPan.translateY si - (y (IncrementalPan.dragStart si) - top rect)) ->
  double_clicks_idle si evi = true ->
  observe_snapshot (SnapshotPan.run s (map (measured rect) evi))
  = observe_incremental (IncrementalPan.run si evi).
Proof.
  revert s si. induction evi as [|ev evi IH]; intros s si Hobs Hrel Hidle.
  - exact Hobs.
  - cbn [double_clicks_idle] in Hidle. apply andb_true_iff in Hidle as [Hev Hrest].
    assert (Hone : double_clicks_idle si [ev] = true)
      by (cbn [double_clicks_idle]; now rewrite Hev).
    destruct (variants_step_related rect s si ev Hobs Hrel Hone) as [Hobs' Hrel'].
    change (SnapshotPan.run s (map (measured rect) (ev :: evi)))
      with (SnapshotPan.run (SnapshotPan.step s (measured rect ev))
              (map (measured rect) evi)).
    change (IncrementalPan.run si (ev :: evi))
      with (IncrementalPan.run (IncrementalPan.step si ev) evi).
    now apply IH.
Qed.

(** X14. With a render after every event, the container measured at a
    fixed box and integer coordinates, the two controllers show the same
    thing: mounted and fed the same events, they agree on scale,
    translation, cursor and dragging flag after every event sequence in
    which each double-click finds the widget idle.  The condition matters: a
    double-click in the middle of a drag is forgotten by the next move of
    the snapshot-relative controller and kept by the incremental one. *)
Theorem X14_controllers_agree_on_every_event_sequence
    (rect : DOMRect) (evi : list IncrementalPan.Event) :
  double_clicks_idle IncrementalPan.initial evi = true ->
  observe_snapshot
    (SnapshotRender.queued
       (SnapshotRender.run SnapshotRender.mounted
          (SnapshotRender.rendered_after_each (map (measured rect) evi))))
  = observe_incremental
      (IncrementalRender.queued
         (IncrementalRender.run IncrementalRender.mounted
            (IncrementalRender.rendered_after_each evi)))
  /\ (let mid_drag := [ IncrementalPan.DoubleClick (pointer_at 0 0);
                        IncrementalPan.PointerDown (pointer_at 100 100);
                        IncrementalPan.DoubleClick (pointer_at 30 40);
                        IncrementalPan.PointerMove (pointer_at 150 130) ] in
      double_clicks_idle IncrementalPan.initial mid_drag = false /\
      SnapshotPan.translate
        (SnapshotRender.queued
           (SnapshotRender.run SnapshotRender.mounted
              (SnapshotRender.rendered_after_each
                 (map (measured container_at_origin) mid_drag))))
        = {| x := 50; y := 30 |} /\
      IncrementalPan.translate
        (IncrementalRender.queued
           (IncrementalRender.run IncrementalRender.mounted
              (IncrementalRender.rendered_after_each mid_drag)))
        = {| x := 20; y := -10 |}).
Proof.
  intros Hidle. split; [|repeat split].
  unfold SnapshotRender.mounted, IncrementalRender.mounted.
  rewrite snapshot_run_rendered, incremental_run_rendered.
  apply variants_run_related; [reflexivity | discriminate | exact Hidle].
Qed.

Lemma X14_controllers_agree_on_every_event_sequence_witness :
  let evi := [ IncrementalPan.DoubleClick (pointer_at 10 20);
               IncrementalPan.PointerDown (pointer_at 100 100);
               IncrementalPan.PointerMove (pointer_at 150 130);
               IncrementalPan.PointerMove (pointer_at 120 90);
               IncrementalPan.PointerUp;
               IncrementalPan.DoubleClick (pointer_at 30 40);
               IncrementalPan.PointerDown (pointer_at 5 5);
               IncrementalPan.PointerMove (pointer_at 9 1);
               IncrementalPan.PointerLeave;
               IncrementalPan.PointerMove (pointer_at 300 300) ] in
  observe_snapshot
    (SnapshotRender.queued
       (SnapshotRender.run SnapshotRender.mounted
          (SnapshotRender.rendered_after_each
             (map (measured {| left := 8; top := 64 |}) evi))))
  = observe_incremental
      (IncrementalRender.queued
         (IncrementalRender.run IncrementalRender.mounted
            (IncrementalRender.rendered_after_each evi))).
Proof.
  intros evi.
  apply (X14_controllers_agree_on_every_event_sequence {| left := 8; top := 64 |} evi).
  reflexivity.
Defined.

(** X15. Moves handled by one render are counted from one reference point:
    in the incremental controller, after a pointerDown at scale > 1 and the
    render that follows it, every pointerMove that arrives before the next
    render adds its displacement from the pointerDown position, so the
    translation ends on the sum of those displacements and not on the
    displacement of the pointer; two such moves to p1 and p2 leave
    t + (p1 - p0) + (p2 - p0). *)
Theorem X15_moves_of_one_render_are_counted_from_the_same_point
    (s : IncrementalPan.State) (e0 : MouseEvent) (ms : list MouseEvent) :
  1 < IncrementalPan.scale s ->
  let after ms :=
    IncrementalPan.translate
      (IncrementalRender.queued
         (IncrementalRender.run (IncrementalRender.committed s)
            (IncrementalRender.Handle (IncrementalPan.PointerDown e0)
               :: IncrementalRender.Render :: IncrementalRender.batch ms))) in
  after ms = IncrementalRender.accumulated (IncrementalPan.translate s) (client e0) ms
  /\ (forall e1 e2,
        after [e1; e2]
        = displaced (displaced (IncrementalPan.translate s) (client e0) (client e1))
                    (client e0) (client e2)).
Proof.
  intros Hs after.
  assert (Hall : forall l, after l
            = IncrementalRender.accumulated (IncrementalPan.translate s) (client e0) l).
  { intros l. subst after. cbv beta.
    change (IncrementalRender.run (IncrementalRender.committed s)
              (IncrementalRender.Handle (IncrementalPan.PointerDown e0)
                 :: IncrementalRender.Render :: IncrementalRender.batch l))
      with (IncrementalRender.run
              (IncrementalRender.render
                 (IncrementalRender.step (IncrementalRender.committed s)
                    (IncrementalRender.Handle (IncrementalPan.PointerDown e0))))
              (IncrementalRender.batch l)).
    rewrite incremental_step_committed.
    assert (Hdown : IncrementalPan.step s (IncrementalPan.PointerDown e0)
              = {| IncrementalPan.scale := IncrementalPan.scale s;
                   IncrementalPan.translateX := IncrementalPan.translateX s;
                   IncrementalPan.translateY := IncrementalPan.translateY s;
                   IncrementalPan.isDragging := true;
                   IncrementalPan.dragStart := client e0;
                   IncrementalPan.cursor := "grabbing" |}).
    { simpl. unfold IncrementalPan.onMouseDown.
      replace (IncrementalPan.scale s <=? 1) with false
        by (symmetry; apply Z.leb_gt; lia).
      reflexivity. }
    rewrite Hdown. rewrite incremental_batch; [reflexivity | reflexivity | exact Hs]. }
  split; [apply Hall|]. intros e1 e2. rewrite Hall. reflexivity.
Qed.

Lemma X15_moves_of_one_render_are_counted_from_the_same_point_witness :
  let s := IncrementalPan.run IncrementalPan.initial
             [IncrementalPan.DoubleClick (pointer_at 0 0)] in
  IncrementalPan.translate
    (IncrementalRender.queued
       (IncrementalRender.run (IncrementalRender.committed s)
          (IncrementalRender.Handle (IncrementalPan.PointerDown (pointer_at 100 100))
             :: IncrementalRender.Render
             :: IncrementalRender.batch [pointer_at 150 130; pointer_at 120 90])))
  = {| x := 70; y := 20 |}.
Proof.
  intros s.
  destruct (X15_moves_of_one_render_are_counted_from_the_same_point s
              (pointer_at 100 100) [pointer_at 150 130; pointer_at 120 90])
    as [H _]; [reflexivity|].
  exact H.
Defined.

(** X16. The snapshot-relative controller does not depend on when the
    widget renders during a drag: after a pointerDown at scale > 1 (container
    measured) and the render that follows it, pointerMoves and renders in
    any order leave the translation at the drag-start translation carried
    from the pointerDown position to the position of the last move, both
    relative to the container. *)
Theorem X16_snapshot_drag_ignores_render_timing
    (s : SnapshotPan.State) (r0 rn : DOMRect) (e0 en : MouseEvent)
    (sched : list (option (Ref * MouseEvent))) :
  1 < SnapshotPan.scale s ->
  List.last (SnapshotRender.moves_of sched) (Some r0, e0) = (Some rn, en) ->
  SnapshotPan.translate
    (SnapshotRender.queued
       (SnapshotRender.run (SnapshotRender.committed s)
          (SnapshotRender.Handle (SnapshotPan.PointerDown (Some r0) e0)
             :: SnapshotRender.Render :: SnapshotRender.interleaved sched)))
  = displaced (SnapshotPan.translate s) (relative e0 r0) (relative en rn).
Proof.
  intros Hs Hlast.
  change (SnapshotRender.run (SnapshotRender.committed s)
            (SnapshotRender.Handle (SnapshotPan.PointerDown (Some r0) e0)
               :: SnapshotRender.Render :: SnapshotRender.interleaved sched))
    with (SnapshotRender.run
            (SnapshotRender.render
               (SnapshotRender.step (SnapshotRender.committed s)
                  (SnapshotRender.Handle (SnapshotPan.PointerDown (Some r0) e0))))
            (SnapshotRender.interleaved sched)).
  rewrite snapshot_step_committed.
  change (SnapshotPan.step s (SnapshotPan.PointerDown (Some r0) e0))
    with (SnapshotPan.onMouseDown (Some r0) e0 s).
  rewrite (snapshot_down_measured r0 e0 s Hs).
  rewrite snapshot_interleaved; try reflexivity; try exact Hs.
  cbn [SnapshotRender.render SnapshotRender.queued SnapshotRender.committed].
  rewrite <- (snapshot_down_measured r0 e0 s Hs).
  now apply (snapshot_drag_closed_form s r0 e0 _ rn en).
Qed.

Lemma X16_snapshot_drag_ignores_render_timing_witness :
  let s := SnapshotPan.run SnapshotPan.initial
             [SnapshotPan.DoubleClick (pointer_at 0 0)] in
  let box := Some container_at_origin in
  SnapshotPan.translate
    (SnapshotRender.queued
       (SnapshotRender.run (SnapshotRender.committed s)
          (SnapshotRender.Handle (SnapshotPan.PointerDown box (pointer_at 100 100))
             :: SnapshotRender.Render
             :: SnapshotRender.interleaved
                  [ Some (box, pointer_at 150 130); Some (box, pointer_at 120 90);
                    None; None; Some (box, pointer_at 110 105) ])))
  = {| x := 10; y := 5 |}.
Proof.
  intros s box.
  apply (X16_snapshot_drag_ignores_render_timing s
           container_at_origin container_at_origin
           (pointer_at 100 100) (pointer_at 110 105)); reflexivity.
Defined.

End VariantsAgree.
